(** * The Wayland window of the video sink: buffer commit and geometry

    A shallow embedding of [gst-libs/gst/wayland/gstwlwindow.c]: the
    private window structure, the presentation state machine
    ([gst_wl_window_render], [commit_callback], [frame_redraw_callback],
    [gst_wl_window_commit_buffer]), the geometry setters, the xdg-shell
    listeners and the toplevel constructor.

    Every C function is a computation in a small state-and-trace monad:
    the state is the window's private structure together with the store of
    the [GstWlBuffer] objects that the window's slots point to; the trace
    lists, in program order, the requests sent to the compositor, the
    mutex and condition-variable operations, the GObject signals and the
    warnings and errors.  [GST_DEBUG], [GST_LOG] and [GST_INFO] output is
    not part of the trace. *)

From Stdlib Require Import ZArith List Bool Lia String.
From stdpp Require Import base option gmap.
Import ListNotations.
Local Open Scope Z_scope.

(** ** Machine integers *)

(** Conversion of an integer value to [gint] / [int32_t] (two's complement
    wrap-around) and to [guint] / [uint32_t]. *)
Definition to_gint (z : Z) : Z := (z + 2 ^ 31) mod 2 ^ 32 - 2 ^ 31.
Definition to_guint (z : Z) : Z := z mod 2 ^ 32.

Definition G_MAXINT32 : Z := 2 ^ 31 - 1.

(** [wl_fixed_from_int] of wayland-util.h: [i * 256] on [int]. *)
Definition wl_fixed_from_int (i : Z) : Z := to_gint (i * 256).

(** [a / b] where [a] is a [gint] and [b] a [guint]: the usual arithmetic
    conversions make the division unsigned; the quotient is then passed
    to a parameter of type [int].  (C leaves [b = 0] undefined; [Z./]
    gives 0 there.) *)
Definition div_gint_guint (a b : Z) : Z := to_gint (to_guint a / to_guint b).

Arguments to_gint : simpl never.
Arguments to_guint : simpl never.
Arguments wl_fixed_from_int : simpl never.
Arguments div_gint_guint : simpl never.

(** ** Data of the window *)

Record GstVideoRectangle : Type := mkRect {
  rect_x : Z; rect_y : Z; rect_w : Z; rect_h : Z
}.

Definition rect_eqb (a b : GstVideoRectangle) : bool :=
  (rect_x a =? rect_x b) && (rect_y a =? rect_y b) &&
  (rect_w a =? rect_w b) && (rect_h a =? rect_h b).

(** The fields of [GstVideoInfo] that the window reads. *)
Record GstVideoInfo : Type := mkInfo {
  info_width : Z; info_height : Z; par_n : Z; par_d : Z;
  GST_VIDEO_INFO_HAS_ALPHA : bool
}.

(** [GstVideoCropMeta]: four [guint] fields. *)
Record GstVideoCropMeta : Type := mkCrop {
  crop_x : Z; crop_y : Z; crop_width : Z; crop_height : Z
}.

Inductive wl_output_transform : Type :=
| WL_OUTPUT_TRANSFORM_NORMAL
| WL_OUTPUT_TRANSFORM_90
| WL_OUTPUT_TRANSFORM_180
| WL_OUTPUT_TRANSFORM_270
| WL_OUTPUT_TRANSFORM_FLIPPED
| WL_OUTPUT_TRANSFORM_FLIPPED_90
| WL_OUTPUT_TRANSFORM_FLIPPED_180
| WL_OUTPUT_TRANSFORM_FLIPPED_270.

(** What the window asks of its [GstWlDisplay]: the globals the
    compositor advertised (a [true] stands for a non-NULL proxy), the
    output size and the preferred window size. *)
Record GstWlDisplay : Type := mkDisplay {
  viewporter : bool;
  alpha_compositing : bool;
  explicit_sync : bool;
  single_pixel_buffer_manager_v1 : bool;
  xdg_wm_base : bool;
  fullscreen_shell_v1 : bool;
  pointer : bool;
  touch : bool;
  display_width : Z;
  display_height : Z;
  preferred_width : Z;
  preferred_height : Z
}.

(** [GstWlWindowPrivate].  Pointers to protocol objects are kept as
    booleans (non-NULL or NULL); the two buffer slots hold the address of
    a [GstWlBuffer] in the buffer store, or nothing for NULL.  The
    surfaces, their wrappers and the video subsurface are created
    unconditionally by the constructor and have no field here; the
    mutexes and condition variables appear in the trace only. *)
Module Priv.
Record GstWlWindowPrivate : Type := mkPriv {
  display : GstWlDisplay;
  area_subsurface : bool;
  area_viewport : bool;
  video_viewport : bool;
  xdg_surface : bool;
  xdg_toplevel : bool;
  surface_sync : bool;
  configured : bool;
  redraw_pending : bool;
  blend_func : bool;
  render_rectangle : GstVideoRectangle;
  video_rectangle : GstVideoRectangle;
  video_width : Z;
  video_height : Z;
  scaled_width : Z;
  buffer_transform : wl_output_transform;
  is_area_surface_mapped : bool;
  next_buffer : option positive;
  next_video_info : option GstVideoInfo;
  staged_buffer : option positive;
  clear_window : bool;
  frame_callback : bool;
  commit_callback : bool;
  src_x : Z;
  src_y : Z;
  src_width : Z;
  src_height : Z;
  scale : Z;
  pointer_x : Z;
  pointer_y : Z;
  fullscreen_width : Z;
  fullscreen_height : Z
}.
End Priv.
Export Priv.

(** Field assignment [priv->f = v].  The setter of a field is read off
    the eta-expansion of the record by abstracting the field's
    projection. *)
Definition eta_priv (p : GstWlWindowPrivate) : GstWlWindowPrivate :=
  mkPriv (display p) (area_subsurface p) (area_viewport p) (video_viewport p)
    (xdg_surface p) (xdg_toplevel p) (surface_sync p) (configured p)
    (redraw_pending p) (blend_func p) (render_rectangle p)
    (video_rectangle p) (video_width p) (video_height p) (scaled_width p)
    (buffer_transform p) (is_area_surface_mapped p) (next_buffer p)
    (next_video_info p) (staged_buffer p) (clear_window p)
    (frame_callback p) (Priv.commit_callback p) (src_x p) (src_y p)
    (src_width p) (src_height p) (scale p) (pointer_x p) (pointer_y p)
    (fullscreen_width p) (fullscreen_height p).

Ltac assign_field proj :=
  let v := fresh "v" in
  let p := fresh "p" in
  intros v p;
  let body := eval cbv beta delta [eta_priv] in (eta_priv p) in
  match eval pattern (proj p) in body with
  | ?f _ => let t := eval cbv beta in (f v) in exact t
  end.

Definition set_area_subsurface : bool -> GstWlWindowPrivate -> GstWlWindowPrivate :=
  ltac:(assign_field area_subsurface).
Definition set_area_viewport : bool -> GstWlWindowPrivate -> GstWlWindowPrivate :=
  ltac:(assign_field area_viewport).
Definition set_video_viewport : bool -> GstWlWindowPrivate -> GstWlWindowPrivate :=
  ltac:(assign_field video_viewport).
Definition set_xdg_surface : bool -> GstWlWindowPrivate -> GstWlWindowPrivate :=
  ltac:(assign_field xdg_surface).
Definition set_xdg_toplevel : bool -> GstWlWindowPrivate -> GstWlWindowPrivate :=
  ltac:(assign_field xdg_toplevel).
Definition set_surface_sync : bool -> GstWlWindowPrivate -> GstWlWindowPrivate :=
  ltac:(assign_field surface_sync).
Definition set_configured : bool -> GstWlWindowPrivate -> GstWlWindowPrivate :=
  ltac:(assign_field configured).
Definition set_redraw_pending : bool -> GstWlWindowPrivate -> GstWlWindowPrivate :=
  ltac:(assign_field redraw_pending).
Definition set_blend_func : bool -> GstWlWindowPrivate -> GstWlWindowPrivate :=
  ltac:(assign_field blend_func).
Definition set_render_rectangle : GstVideoRectangle -> GstWlWindowPrivate -> GstWlWindowPrivate :=
  ltac:(assign_field render_rectangle).
Definition set_video_rectangle : GstVideoRectangle -> GstWlWindowPrivate -> GstWlWindowPrivate :=
  ltac:(assign_field video_rectangle).
Definition set_video_width : Z -> GstWlWindowPrivate -> GstWlWindowPrivate :=
  ltac:(assign_field video_width).
Definition set_video_height : Z -> GstWlWindowPrivate -> GstWlWindowPrivate :=
  ltac:(assign_field video_height).
Definition set_scaled_width : Z -> GstWlWindowPrivate -> GstWlWindowPrivate :=
  ltac:(assign_field scaled_width).
Definition set_buffer_transform : wl_output_transform -> GstWlWindowPrivate -> GstWlWindowPrivate :=
  ltac:(assign_field buffer_transform).
Definition set_is_area_surface_mapped : bool -> GstWlWindowPrivate -> GstWlWindowPrivate :=
  ltac:(assign_field is_area_surface_mapped).
Definition set_next_buffer : option positive -> GstWlWindowPrivate -> GstWlWindowPrivate :=
  ltac:(assign_field next_buffer).
Definition set_next_video_info : option GstVideoInfo -> GstWlWindowPrivate -> GstWlWindowPrivate :=
  ltac:(assign_field next_video_info).
Definition set_staged_buffer : option positive -> GstWlWindowPrivate -> GstWlWindowPrivate :=
  ltac:(assign_field staged_buffer).
Definition set_clear_window : bool -> GstWlWindowPrivate -> GstWlWindowPrivate :=
  ltac:(assign_field clear_window).
Definition set_frame_callback : bool -> GstWlWindowPrivate -> GstWlWindowPrivate :=
  ltac:(assign_field frame_callback).
Definition set_commit_callback : bool -> GstWlWindowPrivate -> GstWlWindowPrivate :=
  ltac:(assign_field Priv.commit_callback).
Definition set_src_x : Z -> GstWlWindowPrivate -> GstWlWindowPrivate :=
  ltac:(assign_field src_x).
Definition set_src_y : Z -> GstWlWindowPrivate -> GstWlWindowPrivate :=
  ltac:(assign_field src_y).
Definition set_src_width : Z -> GstWlWindowPrivate -> GstWlWindowPrivate :=
  ltac:(assign_field src_width).
Definition set_src_height : Z -> GstWlWindowPrivate -> GstWlWindowPrivate :=
  ltac:(assign_field src_height).
Definition set_scale : Z -> GstWlWindowPrivate -> GstWlWindowPrivate :=
  ltac:(assign_field scale).
Definition set_fullscreen_width : Z -> GstWlWindowPrivate -> GstWlWindowPrivate :=
  ltac:(assign_field fullscreen_width).
Definition set_fullscreen_height : Z -> GstWlWindowPrivate -> GstWlWindowPrivate :=
  ltac:(assign_field fullscreen_height).

(** A [GstWlBuffer] together with the [GstBuffer] it wraps: the reference
    count of the wrapped [GstBuffer], whether the compositor holds the
    buffer, and whether a [zwp_linux_buffer_release_v1] object is
    installed on it. *)
Record GstWlBuffer : Type := mkBuffer {
  gstbuffer_refcount : Z;
  used_by_compositor : bool;
  buffer_release : bool
}.

Record World : Type := mkWorld {
  priv : GstWlWindowPrivate;
  buffers : gmap positive GstWlBuffer
}.

(** ** The trace *)

(** [area_surface] and [video_surface] also stand for their wrappers
    (the same surface on the window's event queue), for the subsurface
    and for the viewport of that surface. *)
Inductive surface : Type := area_surface | video_surface.

Inductive mutex : Type := window_lock | commit_lock | configure_mutex | render_lock.
Inductive cond : Type := redraw_wait | configure_cond.
Inductive signal : Type := CLOSED | MAP.
Inductive callback : Type := the_frame_callback | the_commit_callback.

(** What [wl_surface_attach] attaches: NULL, the [wl_buffer] of a video
    buffer of the store, or one of the two border buffers that
    [gst_wl_window_update_borders] creates. *)
Inductive attachment : Type :=
| null_buffer
| video_buffer (b : positive)
| single_pixel_border
| shm_border (w h : Z).

Inductive protocol_object : Type :=
| obj_xdg_toplevel | obj_xdg_surface | obj_viewport (s : surface)
| obj_surface_sync | obj_blend_func | obj_subsurface (s : surface)
| obj_surface (s : surface) | obj_surface_wrapper (s : surface).

Inductive Event : Type :=
| g_mutex_lock (m : mutex)
| g_mutex_unlock (m : mutex)
| g_cond_signal (c : cond)
| g_cond_wait (c : cond) (m : mutex)
| g_cond_clear (c : cond)
| g_mutex_clear (m : mutex)
| g_signal_emit (s : signal)
| wl_callback_destroy (c : callback)
| wl_surface_commit (s : surface)
| wl_surface_attach (s : surface) (b : attachment)
| wl_surface_frame (s : surface)
| wl_surface_set_buffer_scale (s : surface) (n : Z)
| wl_surface_damage_buffer (s : surface)
| wl_surface_set_buffer_transform (s : surface) (t : wl_output_transform)
| wl_surface_set_opaque_region (s : surface)
| wl_surface_set_input_region (s : surface)
| wl_subsurface_set_sync (s : surface)
| wl_subsurface_set_desync (s : surface)
| wl_subsurface_set_position (s : surface) (x y : Z)
| wp_viewport_set_destination (s : surface) (w h : Z)
| wp_viewport_set_source (s : surface) (x y w h : Z)
| gst_wl_display_sync (c : callback)
| wl_display_flush
| zwp_linux_buffer_release_v1_add_listener (b : positive)
| zwp_linux_buffer_release_v1_destroy (b : positive)
| xdg_surface_ack_configure (serial : Z)
| xdg_toplevel_set_fullscreen
| xdg_toplevel_unset_fullscreen
| xdg_toplevel_set_app_id
| xdg_toplevel_resize
| xdg_toplevel_move
| zwp_fullscreen_shell_v1_present_surface
| wl_pointer_add_listener
| wl_touch_add_listener
| destroy (o : protocol_object)
| g_clear_object_display
| parent_class_finalize
| GST_WARNING (msg : string)
| GST_ERROR (msg : string).

(** ** The monad: state passing with an appended trace *)

Definition M (A : Type) : Type := World -> A * World * list Event.

Definition ret {A : Type} (a : A) : M A := fun w => (a, w, []).

Definition bind {A B : Type} (m : M A) (k : A -> M B) : M B :=
  fun w =>
    let '(a, w1, t1) := m w in
    let '(b, w2, t2) := k a w1 in
    (b, w2, t1 ++ t2).

Declare Scope wl_scope.
Delimit Scope wl_scope with wl.
Notation "'let*' x := c 'in' k" := (bind c (fun x => k))
  (at level 10, x name, c at level 100, k at level 200) : wl_scope.
Notation "c ;; k" := (bind c (fun _ => k))
  (at level 100, k at level 200, right associativity) : wl_scope.
Local Open Scope wl_scope.

Arguments bind : simpl never.

Definition value {A : Type} (r : A * World * list Event) : A := fst (fst r).
Definition final {A : Type} (r : A * World * list Event) : World := snd (fst r).
Definition trace {A : Type} (r : A * World * list Event) : list Event := snd r.

Definition emit (e : Event) : M unit := fun w => (tt, w, [e]).
Definition get {A : Type} (f : GstWlWindowPrivate -> A) : M A :=
  fun w => (f (priv w), w, []).
Definition assign (f : GstWlWindowPrivate -> GstWlWindowPrivate) : M unit :=
  fun w => (tt, mkWorld (f (priv w)) (buffers w), []).
Definition when (c : bool) (m : M unit) : M unit := if c then m else ret tt.

(** The test [if (ptr)] of a pointer that may be NULL. *)
Definition is_set {A : Type} (ptr : option A) : bool :=
  match ptr with Some _ => true | None => false end.

(** Reading and updating the [GstWlBuffer] at address [b].  An address
    outside the store is a dangling pointer: a read finds nothing, an
    update changes nothing. *)
Definition buffer_get {A : Type} (b : positive) (f : GstWlBuffer -> A) (d : A) : M A :=
  fun w => (from_option f d (buffers w !! b), w, []).
Definition buffer_update (b : positive) (f : GstWlBuffer -> GstWlBuffer) : M unit :=
  fun w => (tt, mkWorld (priv w) (alter f b (buffers w)), []).

(** ** What the window calls outside this library *)

(** Functions and macros of GStreamer, of its video library and of the
    i.MX platform headers that the window calls: they are parameters of
    the development.  [gst_video_center_rect src dst scaling] is the
    rectangle the C function writes through its third argument. *)
Class Platform : Type := {
  gst_video_center_rect :
    GstVideoRectangle -> GstVideoRectangle -> bool -> GstVideoRectangle;
  gst_util_uint64_scale_int_round : Z -> Z -> Z -> Z;
  HAS_DCSS : bool;
  PANEL_HEIGH : Z
}.

(** A platform to run the model on: centring without scaling as
    [gst_video_center_rect] does it, the scaled case filling the
    destination, rounding division, no DCSS, a panel of 32 pixels. *)
Definition sample_platform : Platform := {|
  gst_video_center_rect := fun src dst scaling =>
    if scaling then dst
    else
      let w := Z.min (rect_w src) (rect_w dst) in
      let h := Z.min (rect_h src) (rect_h dst) in
      mkRect (rect_x dst + Z.quot (rect_w dst - w) 2)
             (rect_y dst + Z.quot (rect_h dst - h) 2) w h;
  gst_util_uint64_scale_int_round := fun v n d => (v * n + d / 2) / d;
  HAS_DCSS := false;
  PANEL_HEIGH := 32
|}.

(** ** The buffer wrapper, [gstwlbuffer.h] *)

(** Updates of one field of a [GstWlBuffer]. *)
Definition take_ref (s : GstWlBuffer) : GstWlBuffer :=
  mkBuffer (gstbuffer_refcount s + 1) (used_by_compositor s) (buffer_release s).
Definition drop_ref (s : GstWlBuffer) : GstWlBuffer :=
  mkBuffer (gstbuffer_refcount s - 1) (used_by_compositor s) (buffer_release s).
Definition with_used (v : bool) (s : GstWlBuffer) : GstWlBuffer :=
  mkBuffer (gstbuffer_refcount s) v (buffer_release s).
Definition with_release (v : bool) (s : GstWlBuffer) : GstWlBuffer :=
  mkBuffer (gstbuffer_refcount s) (used_by_compositor s) v.

(** Modelled from the spec: [gst_wl_buffer_ref_gst_buffer] is declared in
    gstwlbuffer.h and its body is not among the sources.  Section 4.1:
    the reference taken when a buffer is handed to the state machine. *)
Definition gst_wl_buffer_ref_gst_buffer (b : positive) : M unit :=
  buffer_update b take_ref.

(** Modelled from the spec: [gst_wl_buffer_unref_buffer], body not among
    the sources.  Section 4.1: the matching release of one reference. *)
Definition gst_wl_buffer_unref_buffer (b : positive) : M unit :=
  buffer_update b drop_ref.

Definition gst_wl_buffer_get_used_by_compositor (b : positive) : M bool :=
  buffer_get b used_by_compositor false.

Definition gst_wl_buffer_set_used_by_compositor (b : positive) (v : bool) : M unit :=
  buffer_update b (with_used v).

Definition gst_wl_buffer_set_buffer_release (b : positive) (v : bool) : M unit :=
  buffer_update b (with_release v).

(** Modelled from the spec: [gst_wl_buffer_attach], body not among the
    sources.  Section 4.1: attaching is idempotent and has no effect on a
    buffer the compositor already holds; otherwise the buffer is attached
    to the surface, the compositor's hold on it is recorded and a
    reference to the media buffer is kept for it (section 3: a buffer
    with [used_by_compositor] must not go back to the pool). *)
Definition gst_wl_buffer_attach (b : positive) (s : surface) : M unit :=
  let* used := gst_wl_buffer_get_used_by_compositor b in
  if used then ret tt
  else
    emit (wl_surface_attach s (video_buffer b));;
    gst_wl_buffer_ref_gst_buffer b;;
    gst_wl_buffer_set_used_by_compositor b true.

(** ** gstwlwindow.c *)

Definition RESIZE_MARGIN : Z := 20.

Inductive blocking (A : Type) : Type :=
| Blocked
| Returned (a : A).
Arguments Blocked {A}.
Arguments Returned {A} a.

Section Window.
Context `{Platform}.

Definition handle_xdg_toplevel_close : M unit :=
  emit (g_signal_emit CLOSED).

Definition gst_wl_window_resize_video_surface (commit : bool) : M unit :=
  let* p := get id in
  let fx := wl_fixed_from_int (div_gint_guint (src_x p) (scale p)) in
  let fy := wl_fixed_from_int (div_gint_guint (src_y p) (scale p)) in
  let unset := wl_fixed_from_int (div_gint_guint (-1) (scale p)) in
  let fw :=
    match buffer_transform p with
    | WL_OUTPUT_TRANSFORM_NORMAL | WL_OUTPUT_TRANSFORM_180
    | WL_OUTPUT_TRANSFORM_FLIPPED | WL_OUTPUT_TRANSFORM_FLIPPED_180 =>
        wl_fixed_from_int (div_gint_guint (src_width p) (scale p))
    | _ => wl_fixed_from_int (div_gint_guint (src_height p) (scale p))
    end in
  let fh :=
    match buffer_transform p with
    | WL_OUTPUT_TRANSFORM_NORMAL | WL_OUTPUT_TRANSFORM_180
    | WL_OUTPUT_TRANSFORM_FLIPPED | WL_OUTPUT_TRANSFORM_FLIPPED_180 =>
        wl_fixed_from_int (div_gint_guint (src_height p) (scale p))
    | _ => wl_fixed_from_int (div_gint_guint (src_width p) (scale p))
    end in
  let src :=
    match buffer_transform p with
    | WL_OUTPUT_TRANSFORM_NORMAL | WL_OUTPUT_TRANSFORM_180
    | WL_OUTPUT_TRANSFORM_FLIPPED | WL_OUTPUT_TRANSFORM_FLIPPED_180 =>
        mkRect 0 0 (scaled_width p) (video_height p)
    | _ => mkRect 0 0 (video_height p) (scaled_width p)
    end in
  let dst := mkRect 0 0 (rect_w (render_rectangle p)) (rect_h (render_rectangle p)) in
  (* center the video_subsurface inside area_subsurface *)
  let res := gst_video_center_rect src dst (video_viewport p) in
  when (video_viewport p)
    (emit (wp_viewport_set_destination video_surface (rect_w res) (rect_h res));;
     when (negb (fw =? unset) && negb (fh =? unset))
       (emit (wp_viewport_set_source video_surface fx fy fw fh)));;
  emit (wl_subsurface_set_position video_surface (rect_x res) (rect_y res));;
  emit (wl_surface_set_buffer_transform video_surface (buffer_transform p));;
  when commit (emit (wl_surface_commit video_surface));;
  assign (set_video_rectangle res).

Definition gst_wl_window_set_opaque (info : GstVideoInfo) : M unit :=
  if GST_VIDEO_INFO_HAS_ALPHA info then ret tt
  else if HAS_DCSS then ret tt
  else emit (wl_surface_set_opaque_region video_surface).

(** Update the buffer used to draw black borders. *)
Definition gst_wl_window_update_borders : M unit :=
  let* p := get id in
  when (viewporter (display p))
    (emit (wp_viewport_set_destination area_surface
             (rect_w (render_rectangle p)) (rect_h (render_rectangle p))));;
  if viewporter (display p) && is_area_surface_mapped p then
    (* already visible and only needed to get resized *)
    ret tt
  else
    let width := if viewporter (display p) then 1 else rect_w (render_rectangle p) in
    let height := if viewporter (display p) then 1 else rect_h (render_rectangle p) in
    (* draw the area_subsurface *)
    emit (wl_surface_attach area_surface
            (if (width =? 1) && (height =? 1)
                && single_pixel_buffer_manager_v1 (display p)
             then single_pixel_border else shm_border width height));;
    emit (wl_surface_damage_buffer area_surface).

Definition gst_wl_window_update_geometry : M unit :=
  let* p := get id in
  (* position the area inside the parent - needs a parent commit to apply *)
  when (area_subsurface p)
    (emit (wl_subsurface_set_position area_surface
             (rect_x (render_rectangle p)) (rect_y (render_rectangle p))));;
  when (is_area_surface_mapped p) gst_wl_window_update_borders;;
  if negb (configured p) then ret tt
  else
    when (negb (scaled_width p =? 0))
      (emit (g_mutex_lock commit_lock);;
       emit (wl_subsurface_set_sync video_surface);;
       gst_wl_window_resize_video_surface true);;
    emit (wl_surface_commit area_surface);;
    when (negb (scaled_width p =? 0))
      (emit (wl_subsurface_set_desync video_surface);;
       emit (g_mutex_unlock commit_lock)).

Definition gst_wl_window_set_render_rectangle (x y w h : Z) : M unit :=
  let* p := get id in
  if rect_eqb (render_rectangle p) (mkRect x y w h) then ret tt
  else
    assign (set_render_rectangle (mkRect x y w h));;
    gst_wl_window_update_geometry.

(** [buffer]'s crop metadata is all that the function reads of it. *)
Definition gst_wl_window_set_source_crop (crop : option GstVideoCropMeta) : M unit :=
  match crop with
  | Some c =>
      assign (set_src_x (to_gint (crop_x c)));;
      assign (set_src_y (to_gint (crop_y c)));;
      assign (set_src_width (to_gint (crop_width c)));;
      assign (set_src_height (to_gint (crop_height c)))
  | None => assign (set_src_width (-1))
  end.

Definition gst_wl_window_set_scale (scale : Z) : M unit :=
  assign (set_scale (to_guint scale));;
  gst_wl_window_update_geometry.

Definition gst_wl_window_get_scale : M Z := get scale.

Definition gst_wl_window_set_fullscreen_width (fullscreen_width : Z) : M unit :=
  assign (set_fullscreen_width fullscreen_width);;
  gst_wl_window_update_geometry.

Definition gst_wl_window_set_fullscreen_height (fullscreen_height : Z) : M unit :=
  assign (set_fullscreen_height fullscreen_height);;
  gst_wl_window_update_geometry.

(** The [states] array is walked without effect. *)
Definition handle_xdg_toplevel_configure (width height : Z) : M unit :=
  if (width <=? 2 * RESIZE_MARGIN) || (height <=? 2 * RESIZE_MARGIN) then ret tt
  else
    emit (g_mutex_lock render_lock);;
    gst_wl_window_set_render_rectangle 0 0 width height;;
    emit (g_mutex_unlock render_lock).

Definition handle_xdg_surface_configure (serial : Z) : M unit :=
  emit (xdg_surface_ack_configure serial);;
  emit (g_mutex_lock configure_mutex);;
  assign (set_configured true);;
  emit (g_cond_signal configure_cond);;
  emit (g_mutex_unlock configure_mutex).

(** *** Release of a buffer by the compositor (explicit synchronisation) *)

Definition buffer_fenced_release (b : positive) (fence : Z) : M unit :=
  gst_wl_buffer_set_used_by_compositor b false;;
  emit (zwp_linux_buffer_release_v1_destroy b);;
  gst_wl_buffer_set_buffer_release b false;;
  (* the fence is waited for and closed, then the buffer is released *)
  when (0 <? fence) (gst_wl_buffer_unref_buffer b).

Definition buffer_immediate_release (b : positive) : M unit :=
  gst_wl_buffer_set_used_by_compositor b false;;
  emit (zwp_linux_buffer_release_v1_destroy b);;
  gst_wl_buffer_set_buffer_release b false;;
  (* unref should be last, because it may end up destroying the GstWlBuffer *)
  gst_wl_buffer_unref_buffer b.

(** *** The presentation state machine *)


(** The pending video-info is applied (lines 897-904). *)
Definition apply_video_info (i : GstVideoInfo) : M unit :=
  assign (set_scaled_width
            (to_gint (gst_util_uint64_scale_int_round
                        (info_width i) (par_n i) (par_d i))));;
  assign (set_video_width (info_width i));;
  assign (set_video_height (info_height i));;
  emit (wl_subsurface_set_sync video_surface);;
  gst_wl_window_resize_video_surface false;;
  gst_wl_window_set_opaque i.

(** With explicit synchronisation, a release object is requested for a
    buffer that the compositor does not hold (lines 909-919). *)
Definition request_buffer_release (b : positive) : M unit :=
  let* used := gst_wl_buffer_get_used_by_compositor b in
  let* sync := get surface_sync in
  when (negb used && sync)
    (gst_wl_buffer_set_buffer_release b true;;
     emit (zwp_linux_buffer_release_v1_add_listener b)).

(** The frame callback is requested and the buffer attached to the
    video surface, which is committed (lines 921-928). *)
Definition attach_and_commit_video (b : positive) : M unit :=
  emit (wl_surface_frame video_surface);;
  assign (set_frame_callback true);;
  gst_wl_buffer_attach b video_surface;;
  let* n := get scale in
  emit (wl_surface_set_buffer_scale video_surface (to_gint n));;
  emit (wl_surface_damage_buffer video_surface);;
  emit (wl_surface_commit video_surface).

(** The area surface is mapped with its first buffer (lines 930-935). *)
Definition map_area_surface : M unit :=
  let* mapped := get is_area_surface_mapped in
  when (negb mapped)
    (gst_wl_window_update_borders;;
     emit (wl_surface_commit area_surface);;
     assign (set_is_area_surface_mapped true);;
     emit (g_signal_emit MAP)).

(** clear both video and parent surfaces (lines 938-944). *)
Definition clear_surfaces : M unit :=
  emit (wl_surface_attach video_surface null_buffer);;
  let* n := get scale in
  emit (wl_surface_set_buffer_scale video_surface (to_gint n));;
  emit (wl_surface_commit video_surface);;
  emit (wl_surface_attach area_surface null_buffer);;
  emit (wl_surface_commit area_surface);;
  assign (set_is_area_surface_mapped false);;
  assign (set_clear_window false).

(** commit also the parent (area_surface) in order to change the
    position of the video_subsurface (lines 948-953). *)
Definition commit_parent_surface : M unit :=
  emit (wl_surface_commit area_surface);;
  emit (wl_subsurface_set_desync video_surface);;
  assign (set_next_video_info None).

(** [gst_wl_window_commit_buffer] after its first statement, the read
    [info = priv->next_video_info] of line 890; [info] is the local
    variable.  The function holds [commit_lock] from line 907 on and
    never [window_lock], under which [gst_wl_window_render] stores a new
    video-info: such a store can land anywhere between the read and the
    statement [priv->next_video_info = NULL] of line 953.  The body does
    not read the field again, so that wherever the store lands in that
    window, the outcome is that of a store right after the read. *)
Definition commit_buffer_from (info : option GstVideoInfo)
    (buffer : option positive) : M unit :=
  match info with
  | Some i => apply_video_info i
  | None => ret tt
  end;;
  emit (g_mutex_lock commit_lock);;
  match buffer with
  | Some b =>
      request_buffer_release b;;
      attach_and_commit_video b;;
      map_area_surface
  | None => clear_surfaces
  end;;
  when (is_set info) commit_parent_surface;;
  emit (g_mutex_unlock commit_lock).

(** [gst_wl_window_commit_buffer] run without another thread writing the
    window meanwhile. *)
Definition gst_wl_window_commit_buffer (buffer : option positive) : M unit :=
  let* info := get next_video_info in
  commit_buffer_from info buffer.

Definition unref_if_set (buffer : option positive) : M unit :=
  match buffer with
  | Some b => gst_wl_buffer_unref_buffer b
  | None => ret tt
  end.

Definition frame_redraw_callback : M unit :=
  emit (wl_callback_destroy the_frame_callback);;
  assign (set_frame_callback false);;
  emit (g_mutex_lock window_lock);;
  let* next := get staged_buffer in
  assign (set_next_buffer next);;
  assign (set_staged_buffer None);;
  assign (set_redraw_pending false);;
  emit (g_cond_signal redraw_wait);;
  emit (g_mutex_unlock window_lock);;
  let* clear := get clear_window in
  when (is_set next || clear) (gst_wl_window_commit_buffer next);;
  unref_if_set next.

Definition commit_callback : M unit :=
  emit (wl_callback_destroy the_commit_callback);;
  assign (set_commit_callback false);;
  emit (g_mutex_lock window_lock);;
  let* next := get next_buffer in
  emit (g_mutex_unlock window_lock);;
  gst_wl_window_commit_buffer next;;
  unref_if_set next.

(** [commit_callback] on the display thread with [other], the work of
    another thread, scheduled between the read of line 890 and the rest
    of [gst_wl_window_commit_buffer]; no lock that the callback holds
    there keeps a caller of [gst_wl_window_render] out. *)
Definition commit_callback_interleaved (other : M unit) : M unit :=
  emit (wl_callback_destroy the_commit_callback);;
  assign (set_commit_callback false);;
  emit (g_mutex_lock window_lock);;
  let* next := get next_buffer in
  emit (g_mutex_unlock window_lock);;
  let* info := get next_video_info in
  other;;
  commit_buffer_from info next;;
  unref_if_set next.

(** [gst_wl_window_render], in three parts.  [render_enter] is the body
    up to the wait loop, [render_submit] the body after it.  [render_wait]
    is one test of [while (priv->redraw_pending) g_cond_wait (...)]: with
    the flag set the caller sleeps on [redraw_wait] and the call has not
    returned; it is resumed by running [render_wait] again once another
    thread has changed the window. *)
Definition render_enter (buffer : option positive) (info : option GstVideoInfo) : M unit :=
  match buffer with
  | Some b => gst_wl_buffer_ref_gst_buffer b
  | None => ret tt
  end;;
  emit (g_mutex_lock window_lock);;
  match info with
  | Some i => assign (set_next_video_info (Some i))
  | None => ret tt
  end.

Definition render_submit (buffer : option positive) : M bool :=
  let* next := get next_buffer in
  let* staged := get staged_buffer in
  let* kept :=
    match next, staged with
    | Some _, Some s => gst_wl_buffer_unref_buffer s;; ret false
    | _, _ => ret true
    end in
  match next with
  | None =>
      assign (set_next_buffer buffer);;
      assign (set_redraw_pending true);;
      emit (gst_wl_display_sync the_commit_callback);;
      assign (set_commit_callback true);;
      emit wl_display_flush
  | Some _ => assign (set_staged_buffer buffer)
  end;;
  when (negb (is_set buffer)) (assign (set_clear_window true));;
  emit (g_mutex_unlock window_lock);;
  ret kept.

Definition render_wait (buffer : option positive) : M (blocking bool) :=
  let* pending := get redraw_pending in
  if pending then
    emit (g_cond_wait redraw_wait window_lock);;
    ret Blocked
  else
    let* r := render_submit buffer in
    ret (Returned r).

Definition gst_wl_window_render (buffer : option positive)
    (info : option GstVideoInfo) : M (blocking bool) :=
  render_enter buffer info;;
  render_wait buffer.

(** *** Teardown *)

(** Modelled from the spec: [gst_wl_display_callback_destroy] belongs to
    the display object, whose source is not included.  Section 2 gives
    the display the event queue the callbacks are delivered on: a pending
    callback is destroyed there, and the caller's pointer is cleared. *)
Definition gst_wl_display_callback_destroy (c : callback) (pending : bool) : M unit :=
  when pending (emit (wl_callback_destroy c)).

(** [gst_wl_window_finalize], run when the last reference of the window
    is dropped.  After the signal it clears the condition variables and
    the mutexes, and it ends by chaining up to the parent class, which
    frees the instance: the world it leaves stands for freed memory, and
    what a thread that still waits in [gst_wl_window_render] does next is
    not defined by the C code. *)
Definition gst_wl_window_finalize : M unit :=
  let* p := get id in
  gst_wl_display_callback_destroy the_frame_callback (frame_callback p);;
  assign (set_frame_callback false);;
  gst_wl_display_callback_destroy the_commit_callback (Priv.commit_callback p);;
  assign (set_commit_callback false);;
  emit (g_mutex_lock window_lock);;
  assign (set_redraw_pending false);;
  emit (g_cond_signal redraw_wait);;
  emit (g_mutex_unlock window_lock);;
  emit (g_cond_clear configure_cond);;
  emit (g_cond_clear redraw_wait);;
  emit (g_mutex_clear configure_mutex);;
  emit (g_mutex_clear window_lock);;
  emit (g_mutex_clear commit_lock);;
  unref_if_set (staged_buffer p);;
  when (xdg_toplevel p) (emit (destroy obj_xdg_toplevel));;
  when (xdg_surface p) (emit (destroy obj_xdg_surface));;
  when (video_viewport p) (emit (destroy (obj_viewport video_surface)));;
  when (surface_sync p) (emit (destroy obj_surface_sync));;
  emit (destroy (obj_surface_wrapper video_surface));;
  when (blend_func p) (emit (destroy obj_blend_func));;
  emit (destroy (obj_subsurface video_surface));;
  emit (destroy (obj_surface video_surface));;
  when (area_subsurface p) (emit (destroy (obj_subsurface area_surface)));;
  when (area_viewport p) (emit (destroy (obj_viewport area_surface)));;
  emit (destroy (obj_surface_wrapper area_surface));;
  emit (destroy (obj_surface area_surface));;
  emit g_clear_object_display;;
  emit parent_class_finalize.

(** *** Construction *)

(** [g_object_new] followed by [gst_wl_window_init] and by the
    assignment of [priv->display]: the instance structure is zero-filled,
    then the initialiser sets its fields. *)
Definition gst_wl_window_init (d : GstWlDisplay) : GstWlWindowPrivate :=
  {| display := d;
     area_subsurface := false; area_viewport := false; video_viewport := false;
     xdg_surface := false; xdg_toplevel := false; surface_sync := false;
     configured := true; redraw_pending := false; blend_func := false;
     render_rectangle := mkRect 0 0 0 0; video_rectangle := mkRect 0 0 0 0;
     video_width := 0; video_height := 0; scaled_width := 0;
     buffer_transform := WL_OUTPUT_TRANSFORM_NORMAL;
     is_area_surface_mapped := false;
     next_buffer := None; next_video_info := None; staged_buffer := None;
     clear_window := false; frame_callback := false;
     Priv.commit_callback := false;
     src_x := 0; src_y := 0; src_width := -1; src_height := 0;
     scale := 1; pointer_x := 0; pointer_y := 0;
     fullscreen_width := -1; fullscreen_height := -1 |}.

(** [gst_wl_init_surface_state] of gstwlutils.c.  [shell_size] is what
    the function scans from the file /etc/xdg/weston/weston.ini: the two
    integers of the [size] key of its [shell] section, or nothing when
    the file cannot be read or has no such key.  (C leaves the division
    by a desktop width of 0 undefined.) *)
Definition gst_wl_init_surface_state (shell_size : option (Z * Z)) : M bool :=
  match shell_size with
  | None => ret false
  | Some (desktop_width, desktop_height) =>
      let* d := get display in
      if (0 <? display_width d) && (0 <? display_height d) then
        gst_wl_window_set_scale (Z.quot (display_width d) desktop_width);;
        let* n := gst_wl_window_get_scale in
        if negb (n =? 1) && negb (n =? 2) then ret false
        else
          gst_wl_window_set_fullscreen_width desktop_width;;
          gst_wl_window_set_fullscreen_height (desktop_height - PANEL_HEIGH);;
          ret true
      else ret false
  end.

Definition gst_wl_window_new_internal (d : GstWlDisplay)
    (shell_size : option (Z * Z)) : M unit :=
  assign (fun _ => gst_wl_window_init d);;
  (* embed video_surface in area_surface *)
  emit (wl_subsurface_set_desync video_surface);;
  when (viewporter d)
    (assign (set_area_viewport true);; assign (set_video_viewport true));;
  when (alpha_compositing d) (assign (set_blend_func true));;
  when (explicit_sync d) (assign (set_surface_sync true));;
  (* never accept input events on the video surface *)
  emit (wl_surface_set_input_region video_surface);;
  let* ok := gst_wl_init_surface_state shell_size in
  when (negb ok)
    (assign (set_fullscreen_width (display_width d));;
     assign (set_fullscreen_height (display_height d - PANEL_HEIGH));;
     assign (set_scale 1);;
     emit (GST_WARNING "init surface_state fail, fallback to scale=1 fullscreen")).

Definition gst_wl_window_ensure_fullscreen (fullscreen : bool) : M unit :=
  if fullscreen then emit xdg_toplevel_set_fullscreen
  else emit xdg_toplevel_unset_fullscreen.

(** Events of the xdg shell, delivered by the display's dispatch thread. *)
Inductive display_event : Type :=
| xdg_toplevel_configure (width height : Z)
| xdg_surface_configure (serial : Z).

Definition dispatch (e : display_event) : M unit :=
  match e with
  | xdg_toplevel_configure width height => handle_xdg_toplevel_configure width height
  | xdg_surface_configure serial => handle_xdg_surface_configure serial
  end.

Fixpoint dispatch_all (l : list display_event) : M unit :=
  match l with
  | [] => ret tt
  | e :: rest => dispatch e;; dispatch_all rest
  end.

(** What happens, and when (monotonic time in microseconds), while the
    constructor sleeps on [configure_cond]: the display thread dispatches
    an event, or the sleeper is woken for no reason. *)
Inductive happening : Type :=
| dispatched (e : display_event)
| spurious_wakeup.

Definition G_TIME_SPAN_MILLISECOND : Z := 1000.

(** The loop [while (!priv->configured) if (!g_cond_wait_until (...,
    timeout)) { GST_WARNING (...); break; }], from inside a call of
    [g_cond_wait_until] made at time [now] with [priv->configured]
    unset.  [g_cond_wait_until] returns TRUE when the condition is
    signalled or the sleeper wakes spuriously before the absolute time
    [timeout], and FALSE at [timeout]; a dispatched event that does not
    signal leaves the caller asleep.  The result is the time at which the
    loop is left. *)
Fixpoint await_configure (timeout now : Z) (future : list (Z * happening)) : M Z :=
  match future with
  | [] =>
      emit (GST_WARNING "The compositor did not send configure event.");;
      ret (Z.max now timeout)
  | (t, h) :: rest =>
      if timeout <=? t then
        emit (GST_WARNING "The compositor did not send configure event.");;
        ret (Z.max now timeout)
      else
        match h with
        | spurious_wakeup =>
            emit (g_cond_wait configure_cond configure_mutex);;
            await_configure timeout (Z.max now t) rest
        | dispatched e =>
            dispatch e;;
            let* c := get configured in
            if c then ret (Z.max now t)
            else await_configure timeout (Z.max now t) rest
        end
  end.

(** What the constructor meets: the result of reading weston.ini,
    whether the compositor hands out the xdg objects, the clock, the
    events dispatched between the first commit and the wait, and what
    happens during the wait. *)
Record Environment : Type := mkEnv {
  shell_size : option (Z * Z);
  xdg_wm_base_get_xdg_surface : bool;
  xdg_surface_get_toplevel : bool;
  g_get_monotonic_time : Z;
  early : list display_event;
  future : list (Z * happening)
}.

(** The handshake of the xdg branch: from the commit of the toplevel
    role to the unlock of [configure_mutex].  The result is the time at
    which the wait is over. *)
Definition xdg_configure_handshake (env : Environment) : M Z :=
  (* Finally, commit the xdg_surface state as toplevel *)
  assign (set_configured false);;
  emit (wl_surface_commit area_surface);;
  emit wl_display_flush;;
  dispatch_all (early env);;
  emit (g_mutex_lock configure_mutex);;
  let timeout := g_get_monotonic_time env + 100 * G_TIME_SPAN_MILLISECOND in
  let* c := get configured in
  let* t :=
    if c then ret (g_get_monotonic_time env)
    else
      emit (g_cond_wait configure_cond configure_mutex);;
      await_configure timeout (g_get_monotonic_time env) (future env) in
  emit (g_mutex_unlock configure_mutex);;
  ret t.

Definition initial_render_rectangle (d : GstWlDisplay) (info : GstVideoInfo) : M unit :=
  let* p := get id in
  if (0 <? preferred_width d) && (0 <? preferred_height d) then
    gst_wl_window_set_render_rectangle 0 0 (preferred_width d) (preferred_height d)
  else if fullscreen_width p <=? 0 then
    (* set the initial size to be the same as the reported video size *)
    gst_wl_window_set_render_rectangle 0 0
      (to_gint (gst_util_uint64_scale_int_round (info_width info) (par_n info) (par_d info)))
      (info_height info)
  else
    gst_wl_window_set_render_rectangle 0 0 (fullscreen_width p) (fullscreen_height p).

(** [gst_wl_window_new_toplevel]; the result is [true] for a window and
    [false] for NULL. *)
Definition gst_wl_window_new_toplevel (d : GstWlDisplay) (info : GstVideoInfo)
    (fullscreen : bool) (env : Environment) : M bool :=
  gst_wl_window_new_internal d (shell_size env);;
  (* Check which protocol we will use (in order of preference) *)
  let* ok :=
    if xdg_wm_base d then
      (* First create the XDG surface *)
      if negb (xdg_wm_base_get_xdg_surface env) then
        emit (GST_ERROR "Unable to get xdg_surface");; ret false
      else
        assign (set_xdg_surface true);;
        (* Then the toplevel *)
        if negb (xdg_surface_get_toplevel env) then
          emit (GST_ERROR "Unable to get xdg_toplevel");; ret false
        else
          assign (set_xdg_toplevel true);;
          emit xdg_toplevel_set_app_id;;
          when (pointer d) (emit wl_pointer_add_listener);;
          when (touch d) (emit wl_touch_add_listener);;
          gst_wl_window_ensure_fullscreen fullscreen;;
          xdg_configure_handshake env;;
          ret true
    else if fullscreen_shell_v1 d then
      emit zwp_fullscreen_shell_v1_present_surface;; ret true
    else
      emit (GST_ERROR "Unable to use either xdg_wm_base or zwp_fullscreen_shell.");;
      ret false in
  if ok then
    (* render_rectangle is already set via toplevel_configure in
       xdg_shell fullscreen mode *)
    when (negb (xdg_wm_base d && fullscreen)) (initial_render_rectangle d info);;
    ret true
  else
    gst_wl_window_finalize;;
    ret false.

End Window.

(** The functions of the window are unfolded by name only. *)
Arguments gst_wl_window_resize_video_surface : simpl never.
Arguments gst_wl_window_set_opaque : simpl never.
Arguments gst_wl_window_update_borders : simpl never.
Arguments gst_wl_window_update_geometry : simpl never.
Arguments gst_wl_window_set_render_rectangle : simpl never.
Arguments gst_wl_window_set_source_crop : simpl never.
Arguments gst_wl_window_set_scale : simpl never.
Arguments gst_wl_window_set_fullscreen_width : simpl never.
Arguments gst_wl_window_set_fullscreen_height : simpl never.
Arguments handle_xdg_toplevel_configure : simpl never.
Arguments handle_xdg_surface_configure : simpl never.
Arguments gst_wl_window_commit_buffer : simpl never.
Arguments commit_buffer_from : simpl never.
Arguments commit_callback_interleaved : simpl never.
Arguments apply_video_info : simpl never.
Arguments request_buffer_release : simpl never.
Arguments attach_and_commit_video : simpl never.
Arguments map_area_surface : simpl never.
Arguments clear_surfaces : simpl never.
Arguments commit_parent_surface : simpl never.
Arguments frame_redraw_callback : simpl never.
Arguments commit_callback : simpl never.
Arguments render_enter : simpl never.
Arguments render_submit : simpl never.
Arguments render_wait : simpl never.
Arguments gst_wl_window_render : simpl never.
Arguments gst_wl_window_finalize : simpl never.
Arguments gst_wl_init_surface_state : simpl never.
Arguments gst_wl_window_new_internal : simpl never.
Arguments xdg_configure_handshake : simpl never.
Arguments initial_render_rectangle : simpl never.
Arguments gst_wl_window_new_toplevel : simpl never.
Arguments gst_wl_window_ensure_fullscreen : simpl never.
Arguments gst_wl_display_callback_destroy : simpl never.
Arguments gst_wl_buffer_ref_gst_buffer : simpl never.
Arguments gst_wl_buffer_unref_buffer : simpl never.
Arguments gst_wl_buffer_get_used_by_compositor : simpl never.
Arguments gst_wl_buffer_set_used_by_compositor : simpl never.
Arguments gst_wl_buffer_set_buffer_release : simpl never.
Arguments gst_wl_buffer_attach : simpl never.
Arguments unref_if_set : simpl never.
Arguments buffer_fenced_release : simpl never.
Arguments buffer_immediate_release : simpl never.

(** ** Observing traces and stores *)

(** Number of events of a trace that satisfy a test. *)
Definition count (f : Event -> bool) (tr : list Event) : nat :=
  length (List.filter f tr).
Arguments count : simpl never.

Definition is_commit (e : Event) : bool :=
  match e with wl_surface_commit _ => true | _ => false end.

Definition is_commit_of (s : surface) (e : Event) : bool :=
  match e, s with
  | wl_surface_commit area_surface, area_surface => true
  | wl_surface_commit video_surface, video_surface => true
  | _, _ => false
  end.

Definition is_frame_request (e : Event) : bool :=
  match e with wl_surface_frame video_surface => true | _ => false end.

Definition is_attach_null (s : surface) (e : Event) : bool :=
  match e, s with
  | wl_surface_attach area_surface null_buffer, area_surface => true
  | wl_surface_attach video_surface null_buffer, video_surface => true
  | _, _ => false
  end.

Definition is_release_listener (e : Event) : bool :=
  match e with zwp_linux_buffer_release_v1_add_listener _ => true | _ => false end.

Definition is_map_signal (e : Event) : bool :=
  match e with g_signal_emit MAP => true | _ => false end.

(** The requests by which pending video geometry is applied: the video
    subsurface put in sync mode, positioned, put back in desync mode, and
    the opaque region of the video surface. *)
Definition is_video_sync (e : Event) : bool :=
  match e with wl_subsurface_set_sync video_surface => true | _ => false end.

Definition is_video_position (e : Event) : bool :=
  match e with wl_subsurface_set_position video_surface _ _ => true | _ => false end.

Definition is_video_desync (e : Event) : bool :=
  match e with wl_subsurface_set_desync video_surface => true | _ => false end.

Definition is_opaque_region (e : Event) : bool :=
  match e with wl_surface_set_opaque_region video_surface => true | _ => false end.

(** Operations on the mutex that [gst_wl_window_render] waits with. *)
Definition is_window_lock_op (e : Event) : bool :=
  match e with
  | g_mutex_lock window_lock | g_mutex_unlock window_lock
  | g_cond_wait _ window_lock => true
  | _ => false
  end.

(** The border of the area surface drawn at the size of rectangle [r]:
    the viewport destination with a viewporter, a buffer of that size
    without (the single-pixel buffer when that size is 1 x 1). *)
Definition draws_border (r : GstVideoRectangle) (e : Event) : bool :=
  match e with
  | wp_viewport_set_destination area_surface w h => (w =? rect_w r) && (h =? rect_h r)
  | wl_surface_attach area_surface (shm_border w h) => (w =? rect_w r) && (h =? rect_h r)
  | wl_surface_attach area_surface single_pixel_border => (rect_w r =? 1) && (rect_h r =? 1)
  | _ => false
  end.

(** [precedes p q tr]: some event satisfying [p] occurs in [tr] before
    some event satisfying [q]. *)
Fixpoint precedes (p q : Event -> bool) (tr : list Event) : bool :=
  match tr with
  | [] => false
  | e :: rest => (p e && existsb q rest) || precedes p q rest
  end.

(** The last [n] events of a trace. *)
Definition last_events (n : nat) (tr : list Event) : list Event :=
  skipn (length tr - n) tr.

(** Whether the compositor holds the buffer at [b]. *)
Definition held_by_compositor (w : World) (b : positive) : bool :=
  from_option used_by_compositor false (buffers w !! b).
Arguments held_by_compositor : simpl never.

(** Reference count of the media buffer behind the wrapper at [b]. *)
Definition refcount_of (w : World) (b : positive) : option Z :=
  gstbuffer_refcount <$> buffers w !! b.

Definition both_slots_occupied (w : World) : bool :=
  is_set (next_buffer (priv w)) && is_set (staged_buffer (priv w)).

(** The staged slot is empty, and the in-flight slot is empty unless a
    redraw is pending. *)
Definition slots_idle (w : World) : bool :=
  negb (is_set (staged_buffer (priv w)))
  && (redraw_pending (priv w) || negb (is_set (next_buffer (priv w)))).

(** In the teardown: the signal on [redraw_wait], and the clearing of a
    condition variable or of a mutex. *)
Definition is_redraw_signal (e : Event) : bool :=
  match e with g_cond_signal redraw_wait => true | _ => false end.

Definition is_clear (e : Event) : bool :=
  match e with g_cond_clear _ | g_mutex_clear _ => true | _ => false end.

(** The world in which [frame_redraw_callback] releases [window_lock]. *)
Definition frame_unlocked (w : World) : World :=
  mkWorld
    (set_redraw_pending false
       (set_staged_buffer None
          (set_next_buffer (staged_buffer (priv w))
             (set_frame_callback false (priv w)))))
    (buffers w).

Section Sequences.
Context `{Platform}.

(** Calls of [gst_wl_window_render] one after the other, each with a new
    video-info; whether a call returned or is left waiting is not looked
    at. *)
Fixpoint render_calls (calls : list (option positive * GstVideoInfo)) : M unit :=
  match calls with
  | [] => ret tt
  | (buffer, info) :: rest =>
      gst_wl_window_render buffer (Some info);; render_calls rest
  end.

Fixpoint set_render_rectangle_calls (rs : list GstVideoRectangle) : M unit :=
  match rs with
  | [] => ret tt
  | r :: rest =>
      gst_wl_window_set_render_rectangle (rect_x r) (rect_y r) (rect_w r) (rect_h r);;
      set_render_rectangle_calls rest
  end.

(** What happens to a window between its construction and its
    teardown.  The streaming thread calls [gst_wl_window_render]; a call
    that found a redraw pending sleeps and is resumed at the test of its
    loop.  The display thread runs the two callbacks and the xdg
    listeners.  The application sets the render rectangle.  The slots
    and [redraw_pending] are read and written under [window_lock] only,
    by [gst_wl_window_render] and in the locked regions of the two
    callbacks, so that for these fields each action is one step.  No
    order is imposed on the actions: a history may fire a callback that
    is not pending, or resume a call that does not wait. *)
Inductive action : Type :=
| call_render (buffer : option positive) (info : option GstVideoInfo)
| resume_render (buffer : option positive)
| fire_commit_callback
| fire_frame_callback
| call_set_render_rectangle (r : GstVideoRectangle)
| deliver (e : display_event).

Definition step (a : action) : M unit :=
  match a with
  | call_render buffer info => gst_wl_window_render buffer info;; ret tt
  | resume_render buffer => render_wait buffer;; ret tt
  | fire_commit_callback => commit_callback
  | fire_frame_callback => frame_redraw_callback
  | call_set_render_rectangle r =>
      gst_wl_window_set_render_rectangle (rect_x r) (rect_y r) (rect_w r) (rect_h r)
  | deliver e => dispatch e
  end.

Fixpoint run (history : list action) : M unit :=
  match history with
  | [] => ret tt
  | a :: rest => step a;; run rest
  end.

End Sequences.

(** ** Sample inputs *)

Definition sample_display : GstWlDisplay :=
  {| viewporter := true; alpha_compositing := false; explicit_sync := true;
     single_pixel_buffer_manager_v1 := true; xdg_wm_base := true;
     fullscreen_shell_v1 := false; pointer := false; touch := false;
     display_width := 1920; display_height := 1080;
     preferred_width := 0; preferred_height := 0 |}.

Definition sample_info : GstVideoInfo :=
  {| info_width := 640; info_height := 480; par_n := 1; par_d := 1;
     GST_VIDEO_INFO_HAS_ALPHA := false |}.

Definition sample_buffer : GstWlBuffer :=
  {| gstbuffer_refcount := 1; used_by_compositor := false; buffer_release := false |}.

(** A window fresh from the initialiser and three buffers of the
    pipeline, each with the one reference of its owner. *)
Definition fresh_world : World :=
  mkWorld (gst_wl_window_init sample_display)
    (<[1%positive := sample_buffer]>
       (<[2%positive := sample_buffer]> (<[3%positive := sample_buffer]> ∅))).

(** The same window after [render] of buffer 1 with a video-info: the
    buffer is in the in-flight slot, its commit callback is pending. *)
Definition in_flight_world : World :=
  final (gst_wl_window_render (Some 1%positive) (Some sample_info) fresh_world).

(** The window of [in_flight_world] with explicit synchronisation, its
    buffer still held by the compositor from an earlier commit. *)
Definition resubmitted_world : World :=
  mkWorld (set_surface_sync true (priv in_flight_world))
    (alter (with_used true) 1%positive (buffers in_flight_world)).

(** A window with both slots filled and no redraw pending; the two
    buffers in the slots carry the reference of the state machine next
    to that of their owner. *)
Definition held_buffer : GstWlBuffer :=
  {| gstbuffer_refcount := 2; used_by_compositor := false; buffer_release := false |}.

Definition both_slots_world : World :=
  mkWorld
    (set_staged_buffer (Some 2%positive)
       (set_next_buffer (Some 1%positive) (gst_wl_window_init sample_display)))
    (<[1%positive := held_buffer]>
       (<[2%positive := held_buffer]> (<[3%positive := sample_buffer]> ∅))).

(** The same slots with a redraw pending. *)
Definition both_slots_pending_world : World :=
  mkWorld (set_redraw_pending true (priv both_slots_world)) (buffers both_slots_world).

(** A second video-info, of another size. *)
Definition wide_info : GstVideoInfo :=
  {| info_width := 1280; info_height := 720; par_n := 1; par_d := 1;
     GST_VIDEO_INFO_HAS_ALPHA := false |}.

(** A toplevel window that waits for its first configure event. *)
Definition unconfigured_world : World :=
  mkWorld (set_configured false (gst_wl_window_init sample_display)) (buffers fresh_world).

(** A compositor that never sends a configure event. *)
Definition silent_environment : Environment :=
  {| shell_size := None;
     xdg_wm_base_get_xdg_surface := true;
     xdg_surface_get_toplevel := true;
     g_get_monotonic_time := 5000;
     early := [];
     future := [(40000, spurious_wakeup)] |}.

(** ** Further observations *)

Definition is_viewport_source (e : Event) : bool :=
  match e with wp_viewport_set_source video_surface _ _ _ _ => true | _ => false end.

Definition is_destroy_of (o : protocol_object) (e : Event) : bool :=
  match e, o with
  | destroy obj_xdg_toplevel, obj_xdg_toplevel => true
  | destroy obj_xdg_surface, obj_xdg_surface => true
  | destroy obj_surface_sync, obj_surface_sync => true
  | destroy obj_blend_func, obj_blend_func => true
  | destroy (obj_viewport area_surface), obj_viewport area_surface => true
  | destroy (obj_viewport video_surface), obj_viewport video_surface => true
  | destroy (obj_subsurface area_surface), obj_subsurface area_surface => true
  | destroy (obj_subsurface video_surface), obj_subsurface video_surface => true
  | destroy (obj_surface area_surface), obj_surface area_surface => true
  | destroy (obj_surface video_surface), obj_surface video_surface => true
  | destroy (obj_surface_wrapper area_surface), obj_surface_wrapper area_surface => true
  | destroy (obj_surface_wrapper video_surface), obj_surface_wrapper video_surface => true
  | _, _ => false
  end.

Definition is_configure_wait (e : Event) : bool :=
  match e with g_cond_wait configure_cond _ => true | _ => false end.

Definition is_error (e : Event) : bool :=
  match e with GST_ERROR _ => true | _ => false end.

(** A window as [gst_wl_window_new_internal] leaves it on a display
    with explicit synchronisation, with the buffers of [fresh_world]. *)
Definition synced_world : World :=
  mkWorld (set_surface_sync true (gst_wl_window_init sample_display))
    (buffers fresh_world).

(** Whether [gst_wl_window_new_toplevel] takes the path to its [error]
    label: no shell to give the surface a role, or an xdg object that
    the compositor does not hand out. *)
Definition toplevel_fails (d : GstWlDisplay) (env : Environment) : bool :=
  if xdg_wm_base d
  then negb (xdg_wm_base_get_xdg_surface env) || negb (xdg_surface_get_toplevel env)
  else negb (fullscreen_shell_v1 d).

Definition is_commit_lock_op (e : Event) : bool :=
  match e with
  | g_mutex_lock commit_lock | g_mutex_unlock commit_lock => true
  | _ => false
  end.

Definition is_area_destination (r : GstVideoRectangle) (e : Event) : bool :=
  match e with
  | wp_viewport_set_destination area_surface w h => (w =? rect_w r) && (h =? rect_h r)
  | _ => false
  end.

Definition is_area_attach (e : Event) : bool :=
  match e with wl_surface_attach area_surface _ => true | _ => false end.

Definition is_area_damage (e : Event) : bool :=
  match e with wl_surface_damage_buffer area_surface => true | _ => false end.

(** ** Input listeners, rotation and the embedded window *)

Definition set_pointer_x : Z -> GstWlWindowPrivate -> GstWlWindowPrivate :=
  ltac:(assign_field pointer_x).
Definition set_pointer_y : Z -> GstWlWindowPrivate -> GstWlWindowPrivate :=
  ltac:(assign_field pointer_y).

(** [wl_fixed_to_int] of wayland-util.h: [f / 256] in C, which rounds
    toward zero. *)
Definition wl_fixed_to_int (f : Z) : Z := Z.quot f 256.

(** [BTN_LEFT] of linux/input-event-codes.h and
    [WL_POINTER_BUTTON_STATE_PRESSED] of the Wayland protocol. *)
Definition BTN_LEFT : Z := 272.
Definition WL_POINTER_BUTTON_STATE_PRESSED : Z := 1.

Definition pointer_handle_enter (sx sy : Z) : M unit :=
  assign (set_pointer_x (wl_fixed_to_int sx));;
  assign (set_pointer_y (wl_fixed_to_int sy)).

(** The differences are those of two [gint]; C leaves their overflow
    undefined, and they are taken in [Z]. *)
Definition pointer_handle_button (button state : Z) : M unit :=
  let* p := get id in
  if negb (xdg_toplevel p) then ret tt
  else if (button =? BTN_LEFT) && (state =? WL_POINTER_BUTTON_STATE_PRESSED) then
    if (rect_w (render_rectangle p) - pointer_x p <=? RESIZE_MARGIN)
       && (rect_h (render_rectangle p) - pointer_y p <=? RESIZE_MARGIN)
    then emit xdg_toplevel_resize
    else emit xdg_toplevel_move
  else ret tt.

Definition touch_handle_down : M unit :=
  let* p := get id in
  if negb (xdg_toplevel p) then ret tt
  else emit xdg_toplevel_move.

Inductive GstVideoOrientationMethod : Type :=
| GST_VIDEO_ORIENTATION_IDENTITY
| GST_VIDEO_ORIENTATION_90R
| GST_VIDEO_ORIENTATION_180
| GST_VIDEO_ORIENTATION_90L
| GST_VIDEO_ORIENTATION_HORIZ
| GST_VIDEO_ORIENTATION_VERT
| GST_VIDEO_ORIENTATION_UL_LR
| GST_VIDEO_ORIENTATION_UR_LL
| GST_VIDEO_ORIENTATION_AUTO
| GST_VIDEO_ORIENTATION_CUSTOM.

(** The [default] case is [g_assert_not_reached ()]: no transform comes
    back. *)
Definition output_transform_from_orientation_method
    (method : GstVideoOrientationMethod) : option wl_output_transform :=
  match method with
  | GST_VIDEO_ORIENTATION_IDENTITY => Some WL_OUTPUT_TRANSFORM_NORMAL
  | GST_VIDEO_ORIENTATION_90R => Some WL_OUTPUT_TRANSFORM_90
  | GST_VIDEO_ORIENTATION_180 => Some WL_OUTPUT_TRANSFORM_180
  | GST_VIDEO_ORIENTATION_90L => Some WL_OUTPUT_TRANSFORM_270
  | GST_VIDEO_ORIENTATION_HORIZ => Some WL_OUTPUT_TRANSFORM_FLIPPED
  | GST_VIDEO_ORIENTATION_VERT => Some WL_OUTPUT_TRANSFORM_FLIPPED_180
  | GST_VIDEO_ORIENTATION_UL_LR => Some WL_OUTPUT_TRANSFORM_FLIPPED_90
  | GST_VIDEO_ORIENTATION_UR_LL => Some WL_OUTPUT_TRANSFORM_FLIPPED_270
  | _ => None
  end.

(** Whether a method turns the picture by a quarter. *)
Definition quarter_turn (method : GstVideoOrientationMethod) : bool :=
  match method with
  | GST_VIDEO_ORIENTATION_90R | GST_VIDEO_ORIENTATION_90L
  | GST_VIDEO_ORIENTATION_UL_LR | GST_VIDEO_ORIENTATION_UR_LL => true
  | _ => false
  end.

Section More.
Context `{Platform}.

(** [gst_wl_window_set_rotate_method]; nothing is returned when the
    assertion of [output_transform_from_orientation_method] fails. *)
Definition gst_wl_window_set_rotate_method (method : GstVideoOrientationMethod) :
    option (M unit) :=
  match output_transform_from_orientation_method method with
  | Some t => Some (assign (set_buffer_transform t);; gst_wl_window_update_geometry)
  | None => None
  end.

End More.

Arguments pointer_handle_enter : simpl never.
Arguments pointer_handle_button : simpl never.
Arguments touch_handle_down : simpl never.

(** ** The functions in closed form

    What each function of the window returns, leaves and sends, written
    as plain terms of the world it starts from; the lemmas below prove
    that the functions compute them. *)

Section ClosedForms.
Context `{Platform}.

(** The store after [gst_wl_buffer_attach b]. *)
Definition attached (b : positive) (w : World) : gmap positive GstWlBuffer :=
  if held_by_compositor w b then buffers w
  else alter (with_used true) b (alter take_ref b (buffers w)).

(** The requests of the three geometry helpers depend on the window
    structure only, and the only field they write is [video_rectangle]. *)
Definition resize_requests (commit : bool) (p : GstWlWindowPrivate) : list Event :=
  trace (gst_wl_window_resize_video_surface commit (mkWorld p ∅)).

Definition centered_video_rectangle (p : GstWlWindowPrivate) : GstVideoRectangle :=
  video_rectangle (priv (final (gst_wl_window_resize_video_surface false (mkWorld p ∅)))).

Definition border_requests (p : GstWlWindowPrivate) : list Event :=
  trace (gst_wl_window_update_borders (mkWorld p ∅)).

Definition opaque_requests (i : GstVideoInfo) : list Event :=
  if GST_VIDEO_INFO_HAS_ALPHA i || HAS_DCSS then []
  else [wl_surface_set_opaque_region video_surface].

Definition geometry_requests (p : GstWlWindowPrivate) : list Event :=
  trace (gst_wl_window_update_geometry (mkWorld p ∅)).

Definition geometry_priv (p : GstWlWindowPrivate) : GstWlWindowPrivate :=
  if configured p && negb (scaled_width p =? 0)
  then set_video_rectangle (centered_video_rectangle p) p
  else p.

(** The window structure after the sizes of the pending video-info are
    stored. *)
Definition video_info_priv (i : GstVideoInfo) (p : GstWlWindowPrivate) : GstWlWindowPrivate :=
  set_video_height (info_height i)
    (set_video_width (info_width i)
       (set_scaled_width
          (to_gint (gst_util_uint64_scale_int_round (info_width i) (par_n i) (par_d i)))
          p)).

(** The three results of [gst_wl_window_commit_buffer]. *)
Definition pending_priv (p : GstWlWindowPrivate) : GstWlWindowPrivate :=
  match next_video_info p with
  | Some i =>
      set_video_rectangle (centered_video_rectangle (video_info_priv i p))
        (video_info_priv i p)
  | None => p
  end.

Definition pending_requests (p : GstWlWindowPrivate) : list Event :=
  match next_video_info p with
  | Some i =>
      wl_subsurface_set_sync video_surface
        :: resize_requests false (video_info_priv i p) ++ opaque_requests i
  | None => []
  end.

Definition present_priv (buffer : option positive) (q : GstWlWindowPrivate) : GstWlWindowPrivate :=
  match buffer with
  | Some _ =>
      if is_area_surface_mapped q then set_frame_callback true q
      else set_is_area_surface_mapped true (set_frame_callback true q)
  | None => set_clear_window false (set_is_area_surface_mapped false q)
  end.

Definition present_requests (buffer : option positive) (held : bool)
    (q : GstWlWindowPrivate) : list Event :=
  match buffer with
  | Some b =>
      (if negb held && surface_sync q
       then [zwp_linux_buffer_release_v1_add_listener b] else [])
      ++ (wl_surface_frame video_surface
          :: (if held then [] else [wl_surface_attach video_surface (video_buffer b)])
          ++ [wl_surface_set_buffer_scale video_surface (to_gint (scale q));
              wl_surface_damage_buffer video_surface;
              wl_surface_commit video_surface])
      ++ (if is_area_surface_mapped q then []
          else border_requests (set_frame_callback true q)
               ++ [wl_surface_commit area_surface; g_signal_emit MAP])
  | None =>
      [wl_surface_attach video_surface null_buffer;
       wl_surface_set_buffer_scale video_surface (to_gint (scale q));
       wl_surface_commit video_surface;
       wl_surface_attach area_surface null_buffer;
       wl_surface_commit area_surface]
  end.

Definition parent_requests (p : GstWlWindowPrivate) : list Event :=
  if is_set (next_video_info p)
  then [wl_surface_commit area_surface; wl_subsurface_set_desync video_surface]
  else [].

Definition commit_priv (buffer : option positive) (p : GstWlWindowPrivate) : GstWlWindowPrivate :=
  if is_set (next_video_info p)
  then set_next_video_info None (present_priv buffer (pending_priv p))
  else present_priv buffer (pending_priv p).

Definition commit_store (buffer : option positive) (w : World) : gmap positive GstWlBuffer :=
  match buffer with
  | Some b =>
      if held_by_compositor w b then buffers w
      else
        alter (with_used true) b
          (alter take_ref b
             (if surface_sync (priv w) then alter (with_release true) b (buffers w)
              else buffers w))
  | None => buffers w
  end.

Definition commit_requests (buffer : option positive) (w : World) : list Event :=
  pending_requests (priv w)
  ++ g_mutex_lock commit_lock
  :: present_requests buffer
       (match buffer with Some b => held_by_compositor w b | None => false end)
       (pending_priv (priv w))
  ++ parent_requests (priv w)
  ++ [g_mutex_unlock commit_lock].

(** The store after the reference taken by [gst_wl_window_render] is
    given back. *)
Definition unref_store (buffer : option positive) (s : gmap positive GstWlBuffer) :
    gmap positive GstWlBuffer :=
  match buffer with
  | Some b => alter drop_ref b s
  | None => s
  end.

(** The world in which [commit_callback] releases [window_lock]. *)
Definition commit_unlocked (w : World) : World :=
  mkWorld (set_commit_callback false (priv w)) (buffers w).

(** The world in which [gst_wl_window_render] tests [redraw_pending]. *)
Definition render_entered (buffer : option positive) (info : option GstVideoInfo)
    (w : World) : World :=
  mkWorld
    (match info with
     | Some i => set_next_video_info (Some i) (priv w)
     | None => priv w
     end)
    (match buffer with
     | Some b => alter take_ref b (buffers w)
     | None => buffers w
     end).

(** The window structure after the part of [gst_wl_window_render] that
    follows the wait. *)
Definition submit_priv (buffer : option positive) (p : GstWlWindowPrivate) :
    GstWlWindowPrivate :=
  let q :=
    match next_buffer p with
    | None =>
        set_commit_callback true (set_redraw_pending true (set_next_buffer buffer p))
    | Some _ => set_staged_buffer buffer p
    end in
  if is_set buffer then q else set_clear_window true q.

Definition submit_requests (p : GstWlWindowPrivate) : list Event :=
  match next_buffer p with
  | None => [gst_wl_display_sync the_commit_callback; wl_display_flush]
  | Some _ => []
  end
  ++ [g_mutex_unlock window_lock].

Definition finalize_priv (p : GstWlWindowPrivate) : GstWlWindowPrivate :=
  set_redraw_pending false (set_commit_callback false (set_frame_callback false p)).

Definition finalize_requests (p : GstWlWindowPrivate) : list Event :=
  (if frame_callback p then [wl_callback_destroy the_frame_callback] else [])
  ++ (if Priv.commit_callback p then [wl_callback_destroy the_commit_callback] else [])
  ++ [g_mutex_lock window_lock; g_cond_signal redraw_wait; g_mutex_unlock window_lock;
      g_cond_clear configure_cond; g_cond_clear redraw_wait;
      g_mutex_clear configure_mutex; g_mutex_clear window_lock;
      g_mutex_clear commit_lock]
  ++ (if xdg_toplevel p then [destroy obj_xdg_toplevel] else [])
  ++ (if xdg_surface p then [destroy obj_xdg_surface] else [])
  ++ (if video_viewport p then [destroy (obj_viewport video_surface)] else [])
  ++ (if surface_sync p then [destroy obj_surface_sync] else [])
  ++ [destroy (obj_surface_wrapper video_surface)]
  ++ (if blend_func p then [destroy obj_blend_func] else [])
  ++ [destroy (obj_subsurface video_surface); destroy (obj_surface video_surface)]
  ++ (if area_subsurface p then [destroy (obj_subsurface area_surface)] else [])
  ++ (if area_viewport p then [destroy (obj_viewport area_surface)] else [])
  ++ [destroy (obj_surface_wrapper area_surface); destroy (obj_surface area_surface);
      g_clear_object_display; parent_class_finalize].

Definition configure_warning : Event :=
  GST_WARNING "The compositor did not send configure event.".

End ClosedForms.

(** ** Reasoning about computations *)

Lemma value_bind {A B : Type} (m : M A) (k : A -> M B) (w : World) :
  value (bind m k w) = value (k (value (m w)) (final (m w))).
Proof.
  unfold bind, value, final. destruct (m w) as [[a w1] t1].
  cbn. destruct (k a w1) as [[b w2] t2]. reflexivity.
Qed.

Lemma final_bind {A B : Type} (m : M A) (k : A -> M B) (w : World) :
  final (bind m k w) = final (k (value (m w)) (final (m w))).
Proof.
  unfold bind, value, final. destruct (m w) as [[a w1] t1].
  cbn. destruct (k a w1) as [[b w2] t2]. reflexivity.
Qed.

Lemma trace_bind {A B : Type} (m : M A) (k : A -> M B) (w : World) :
  trace (bind m k w) = trace (m w) ++ trace (k (value (m w)) (final (m w))).
Proof.
  unfold bind, value, final, trace. destruct (m w) as [[a w1] t1].
  cbn. destruct (k a w1) as [[b w2] t2]. reflexivity.
Qed.

(** A computation is its value, its final world and its trace. *)
Lemma run_eq {A : Type} (r : A * World * list Event) :
  r = (value r, final r, trace r).
Proof. destruct r as [[a w] t]. reflexivity. Qed.

Lemma unit_value (u : unit) : u = tt.
Proof. destruct u. reflexivity. Qed.

Lemma count_app (f : Event -> bool) (s t : list Event) :
  count f (s ++ t) = (count f s + count f t)%nat.
Proof. unfold count. rewrite List.filter_app, length_app. reflexivity. Qed.

Lemma count_cons (f : Event -> bool) (e : Event) (t : list Event) :
  count f (e :: t) = ((if f e then 1 else 0) + count f t)%nat.
Proof. unfold count. cbn. destruct (f e); reflexivity. Qed.

Lemma count_nil (f : Event -> bool) : count f [] = 0%nat.
Proof. reflexivity. Qed.

Lemma existsb_count (f : Event -> bool) (t : list Event) :
  existsb f t = negb (Nat.eqb (count f t) 0).
Proof.
  induction t as [|e t IH]; [reflexivity|].
  rewrite count_cons. cbn [existsb]. rewrite IH.
  destruct (f e); [reflexivity|]. reflexivity.
Qed.

Lemma last_events_suffix (s t : list Event) :
  last_events (length t) (s ++ t) = t.
Proof.
  unfold last_events. rewrite length_app.
  replace (length s + length t - length t)%nat with (length s) by lia.
  rewrite skipn_app, skipn_all, Nat.sub_diag. reflexivity.
Qed.

Lemma precedes_app (p q : Event -> bool) (s t : list Event) :
  precedes p q (s ++ t)
  = precedes p q s || (existsb p s && existsb q t) || precedes p q t.
Proof.
  induction s as [|e s IH]; cbn.
  - reflexivity.
  - rewrite IH, existsb_app.
    destruct (p e), (existsb q s), (existsb q t), (precedes p q s),
      (existsb p s), (precedes p q t); reflexivity.
Qed.

Lemma precedes_split (p q : Event -> bool) (s t : list Event) :
  existsb p s = true -> existsb q t = true -> precedes p q (s ++ t) = true.
Proof.
  intros Hp Hq. rewrite precedes_app, Hp, Hq. cbn.
  rewrite orb_true_r. reflexivity.
Qed.

Lemma precedes_within (p q : Event -> bool) (s t u : list Event) :
  precedes p q t = true -> precedes p q (s ++ t ++ u) = true.
Proof.
  intros Ht. rewrite precedes_app, precedes_app, Ht. cbn.
  rewrite orb_true_r. reflexivity.
Qed.

Lemma rect_eqb_eq (a b : GstVideoRectangle) : rect_eqb a b = true <-> a = b.
Proof.
  destruct a, b; unfold rect_eqb; cbn.
  rewrite !andb_true_iff, !Z.eqb_eq. split.
  - intros [[[-> ->] ->] ->]; reflexivity.
  - intros [= -> -> -> ->]; auto.
Qed.

Lemma rect_eqb_refl (a : GstVideoRectangle) : rect_eqb a a = true.
Proof. apply rect_eqb_eq. reflexivity. Qed.

Lemma world_eta (w : World) : mkWorld (priv w) (buffers w) = w.
Proof. destruct w; reflexivity. Qed.

(** *** Tactics *)

Ltac unfold_window :=
  unfold gst_wl_window_commit_buffer, commit_buffer_from,
    gst_wl_window_update_geometry,
    gst_wl_window_update_borders, gst_wl_window_resize_video_surface,
    gst_wl_window_set_opaque, gst_wl_buffer_attach,
    gst_wl_buffer_get_used_by_compositor, gst_wl_buffer_set_used_by_compositor,
    gst_wl_buffer_set_buffer_release, gst_wl_buffer_ref_gst_buffer,
    gst_wl_buffer_unref_buffer, unref_if_set,
    buffer_get, buffer_update, when, bind, get, assign, emit, ret,
    value, final, trace.

Ltac split_conj := repeat match goal with |- _ /\ _ => split end.

(** Case analysis along the branches of a goal.  The leftmost atom of
    the first test is split; what is known of a test from an earlier
    split is used wherever it shows up again, so that no branch
    contradicts itself. *)
Ltac atom_of c :=
  lazymatch c with
  | negb ?a => atom_of a
  | ?a && _ => atom_of a
  | ?a || _ => atom_of a
  | context [if ?d then _ else _] => atom_of d
  | _ => c
  end.

Ltac not_a_value a :=
  lazymatch a with
  | true => fail
  | false => fail
  | Some _ => fail
  | None => fail
  | _ => idtac
  end.

Ltac known :=
  repeat match goal with
         | E : ?a = true |- context [?a] => not_a_value a; rewrite E; cbn
         | E : ?a = false |- context [?a] => not_a_value a; rewrite E; cbn
         | E : ?a = Some _ |- context [?a] => not_a_value a; rewrite E; cbn
         | E : ?a = None |- context [?a] => not_a_value a; rewrite E; cbn
         end.

Ltac split_ifs :=
  repeat (match goal with
          | |- context [match ?c with Some _ => _ | None => _ end] => destruct c eqn:?
          | |- context [if ?c then _ else _] => let a := atom_of c in destruct a eqn:?
          end; cbn; known).

(** One step of observing a sequence: the value, the final world and
    the trace of [m;; k] from those of [m] and of [k]. *)
Ltac observe :=
  repeat first [ rewrite trace_bind | rewrite final_bind | rewrite value_bind
               | progress cbn ].

(** *** The buffer store *)

Lemma held_same_store (p : GstWlWindowPrivate) (w : World) (b : positive) :
  held_by_compositor (mkWorld p (buffers w)) b = held_by_compositor w b.
Proof. reflexivity. Qed.

Lemma held_alter_release (p : GstWlWindowPrivate) (w : World) (v : bool)
    (b b' : positive) :
  held_by_compositor (mkWorld p (alter (with_release v) b (buffers w))) b'
  = held_by_compositor w b'.
Proof.
  unfold held_by_compositor. cbn. rewrite lookup_alter.
  case_decide; [subst|reflexivity]. destruct (buffers w !! b'); reflexivity.
Qed.

Lemma get_used_run (b : positive) (w : World) :
  gst_wl_buffer_get_used_by_compositor b w = (held_by_compositor w b, w, []).
Proof. reflexivity. Qed.

Lemma set_release_run (b : positive) (v : bool) (w : World) :
  gst_wl_buffer_set_buffer_release b v w
  = (tt, mkWorld (priv w) (alter (with_release v) b (buffers w)), []).
Proof. reflexivity. Qed.

Lemma ref_run (b : positive) (w : World) :
  gst_wl_buffer_ref_gst_buffer b w
  = (tt, mkWorld (priv w) (alter take_ref b (buffers w)), []).
Proof. reflexivity. Qed.

Lemma unref_run (b : positive) (w : World) :
  gst_wl_buffer_unref_buffer b w
  = (tt, mkWorld (priv w) (alter drop_ref b (buffers w)), []).
Proof. reflexivity. Qed.

Lemma attach_run (b : positive) (s : surface) (w : World) :
  gst_wl_buffer_attach b s w
  = (tt, mkWorld (priv w) (attached b w),
     if held_by_compositor w b then [] else [wl_surface_attach s (video_buffer b)]).
Proof.
  unfold gst_wl_buffer_attach, attached. unfold bind at 1.
  rewrite get_used_run. destruct (held_by_compositor w b).
  - rewrite world_eta. reflexivity.
  - reflexivity.
Qed.

Lemma unref_if_set_run (buffer : option positive) (w : World) :
  unref_if_set buffer w
  = (tt,
     mkWorld (priv w)
       (match buffer with Some b => alter drop_ref b (buffers w) | None => buffers w end),
     []).
Proof. destruct buffer; [reflexivity|]. cbn. rewrite world_eta. reflexivity. Qed.

(** *** The geometry functions in closed form *)

Section Geometry.
Context `{Platform}.

Lemma resize_run (commit : bool) (w : World) :
  gst_wl_window_resize_video_surface commit w
  = (tt,
     mkWorld (set_video_rectangle (centered_video_rectangle (priv w)) (priv w)) (buffers w),
     resize_requests commit (priv w)).
Proof.
  unfold resize_requests, centered_video_rectangle. unfold_window. cbn.
  split_ifs. all: reflexivity.
Qed.

Lemma opaque_run (i : GstVideoInfo) (w : World) :
  gst_wl_window_set_opaque i w = (tt, w, opaque_requests i).
Proof.
  unfold opaque_requests, gst_wl_window_set_opaque, emit, ret.
  destruct (GST_VIDEO_INFO_HAS_ALPHA i), HAS_DCSS; reflexivity.
Qed.

Lemma borders_run (w : World) :
  gst_wl_window_update_borders w = (tt, w, border_requests (priv w)).
Proof.
  unfold border_requests. unfold_window. cbn.
  split_ifs. all: reflexivity.
Qed.

Lemma geometry_run (w : World) :
  gst_wl_window_update_geometry w
  = (tt, mkWorld (geometry_priv (priv w)) (buffers w), geometry_requests (priv w)).
Proof.
  unfold geometry_requests, geometry_priv, centered_video_rectangle.
  unfold_window. cbn. split_ifs. all: try reflexivity.
  all: rewrite world_eta; reflexivity.
Qed.

(** What the closed forms send. *)
Lemma resize_requests_counts (commit : bool) (p : GstWlWindowPrivate) :
  let tr := resize_requests commit p in
  count is_commit tr = (if commit then 1 else 0)%nat /\
  count (is_commit_of area_surface) tr = 0%nat /\
  count (is_commit_of video_surface) tr = (if commit then 1 else 0)%nat /\
  count is_video_position tr = 1%nat /\
  count is_video_sync tr = 0%nat /\
  count is_video_desync tr = 0%nat /\
  count is_opaque_region tr = 0%nat /\
  count is_window_lock_op tr = 0%nat /\
  count is_frame_request tr = 0%nat /\
  count is_release_listener tr = 0%nat /\
  count is_map_signal tr = 0%nat /\
  count (is_attach_null video_surface) tr = 0%nat /\
  count (is_attach_null area_surface) tr = 0%nat.
Proof.
  unfold resize_requests. unfold_window. cbn.
  split_ifs. all: split_conj; reflexivity.
Qed.

Lemma border_requests_counts (p : GstWlWindowPrivate) :
  let tr := border_requests p in
  count is_commit tr = 0%nat /\
  count (is_commit_of area_surface) tr = 0%nat /\
  count (is_commit_of video_surface) tr = 0%nat /\
  count is_video_position tr = 0%nat /\
  count is_video_sync tr = 0%nat /\
  count is_video_desync tr = 0%nat /\
  count is_opaque_region tr = 0%nat /\
  count is_window_lock_op tr = 0%nat /\
  count is_frame_request tr = 0%nat /\
  count is_release_listener tr = 0%nat /\
  count is_map_signal tr = 0%nat /\
  count (is_attach_null video_surface) tr = 0%nat /\
  count (is_attach_null area_surface) tr = 0%nat.
Proof.
  unfold border_requests. unfold_window. cbn.
  split_ifs. all: split_conj; reflexivity.
Qed.

Lemma border_requests_draw (p : GstWlWindowPrivate) :
  is_area_surface_mapped p = false ->
  existsb (draws_border (render_rectangle p)) (border_requests p) = true.
Proof.
  intros Hm. unfold border_requests. unfold_window. cbn.
  rewrite Hm, andb_false_r.
  destruct (viewporter (display p)); cbn.
  - rewrite !Z.eqb_refl. reflexivity.
  - destruct ((rect_w (render_rectangle p) =? 1)
              && (rect_h (render_rectangle p) =? 1)
              && single_pixel_buffer_manager_v1 (display p)) eqn:E; cbn.
    + apply andb_true_iff in E as [-> _]. reflexivity.
    + rewrite !Z.eqb_refl. reflexivity.
Qed.

Lemma geometry_requests_unconfigured (p : GstWlWindowPrivate) :
  configured p = false -> count is_commit (geometry_requests p) = 0%nat.
Proof.
  intros Hc. unfold geometry_requests. unfold_window. cbn. rewrite Hc. cbn.
  split_ifs. all: reflexivity.
Qed.

Lemma geometry_requests_configured (p : GstWlWindowPrivate) :
  configured p = true ->
  count (is_commit_of area_surface) (geometry_requests p) = 1%nat.
Proof.
  intros Hc. unfold geometry_requests. unfold_window. cbn. rewrite Hc. cbn.
  split_ifs. all: reflexivity.
Qed.

(** [gst_wl_window_set_render_rectangle] in closed form. *)
Lemma set_render_rectangle_run (w : World) (x y width height : Z) :
  gst_wl_window_set_render_rectangle x y width height w
  = if rect_eqb (render_rectangle (priv w)) (mkRect x y width height) then (tt, w, [])
    else
      let p := set_render_rectangle (mkRect x y width height) (priv w) in
      (tt, mkWorld (geometry_priv p) (buffers w), geometry_requests p).
Proof.
  unfold gst_wl_window_set_render_rectangle, bind, get. cbn.
  destruct (rect_eqb (render_rectangle (priv w)) (mkRect x y width height)).
  - reflexivity.
  - cbn. rewrite geometry_run. reflexivity.
Qed.

Lemma geometry_priv_fields (p : GstWlWindowPrivate) :
  render_rectangle (geometry_priv p) = render_rectangle p /\
  configured (geometry_priv p) = configured p /\
  is_area_surface_mapped (geometry_priv p) = is_area_surface_mapped p /\
  next_buffer (geometry_priv p) = next_buffer p /\
  staged_buffer (geometry_priv p) = staged_buffer p /\
  redraw_pending (geometry_priv p) = redraw_pending p /\
  scaled_width (geometry_priv p) = scaled_width p /\
  display (geometry_priv p) = display p.
Proof.
  unfold geometry_priv.
  destruct (configured p && negb (scaled_width p =? 0)); split_conj; reflexivity.
Qed.

Lemma set_render_rectangle_same (w : World) (x y width height : Z) :
  render_rectangle (priv w) = mkRect x y width height ->
  gst_wl_window_set_render_rectangle x y width height w = (tt, w, []).
Proof.
  intros E. rewrite set_render_rectangle_run, E, rect_eqb_refl. reflexivity.
Qed.

Lemma set_render_rectangle_stored (w : World) (x y width height : Z) :
  render_rectangle (priv (final (gst_wl_window_set_render_rectangle x y width height w)))
  = mkRect x y width height.
Proof.
  rewrite set_render_rectangle_run.
  destruct (rect_eqb (render_rectangle (priv w)) (mkRect x y width height)) eqn:E.
  - apply rect_eqb_eq in E. exact E.
  - cbn.
    destruct (geometry_priv_fields
                (set_render_rectangle (mkRect x y width height) (priv w))) as (-> & _).
    reflexivity.
Qed.

Lemma set_render_rectangle_configured (w : World) (x y width height : Z) :
  configured (priv (final (gst_wl_window_set_render_rectangle x y width height w)))
  = configured (priv w).
Proof.
  rewrite set_render_rectangle_run.
  destruct (rect_eqb (render_rectangle (priv w)) (mkRect x y width height)).
  - reflexivity.
  - cbn.
    destruct (geometry_priv_fields
                (set_render_rectangle (mkRect x y width height) (priv w)))
      as (_ & -> & _).
    reflexivity.
Qed.

Lemma set_render_rectangle_mapped (w : World) (x y width height : Z) :
  is_area_surface_mapped
    (priv (final (gst_wl_window_set_render_rectangle x y width height w)))
  = is_area_surface_mapped (priv w).
Proof.
  rewrite set_render_rectangle_run.
  destruct (rect_eqb (render_rectangle (priv w)) (mkRect x y width height)).
  - reflexivity.
  - cbn.
    destruct (geometry_priv_fields
                (set_render_rectangle (mkRect x y width height) (priv w)))
      as (_ & _ & -> & _).
    reflexivity.
Qed.

Lemma set_render_rectangle_unconfigured (w : World) (x y width height : Z) :
  configured (priv w) = false ->
  count is_commit (trace (gst_wl_window_set_render_rectangle x y width height w)) = 0%nat.
Proof.
  intros Hc. rewrite set_render_rectangle_run.
  destruct (rect_eqb (render_rectangle (priv w)) (mkRect x y width height)).
  - reflexivity.
  - cbn. apply geometry_requests_unconfigured. exact Hc.
Qed.

Lemma set_render_rectangle_changed (w : World) (x y width height : Z) :
  render_rectangle (priv w) <> mkRect x y width height ->
  configured (priv w) = true ->
  count (is_commit_of area_surface)
    (trace (gst_wl_window_set_render_rectangle x y width height w)) = 1%nat.
Proof.
  intros Hne Hc. rewrite set_render_rectangle_run.
  destruct (rect_eqb (render_rectangle (priv w)) (mkRect x y width height)) eqn:E.
  - apply rect_eqb_eq in E. contradiction.
  - cbn. apply geometry_requests_configured. exact Hc.
Qed.

Lemma set_render_rectangle_calls_unconfigured (rs : list GstVideoRectangle) (w : World) :
  configured (priv w) = false ->
  count is_commit (trace (set_render_rectangle_calls rs w)) = 0%nat /\
  configured (priv (final (set_render_rectangle_calls rs w))) = false.
Proof.
  revert w. induction rs as [|r rs IH]; intros w Hc.
  - split; [reflexivity | exact Hc].
  - cbn [set_render_rectangle_calls].
    rewrite trace_bind, final_bind, count_app.
    destruct (IH (final (gst_wl_window_set_render_rectangle
                           (rect_x r) (rect_y r) (rect_w r) (rect_h r) w))) as [IHt IHc].
    { rewrite set_render_rectangle_configured. exact Hc. }
    rewrite set_render_rectangle_unconfigured by exact Hc.
    split; [exact IHt | exact IHc].
Qed.

Lemma set_render_rectangle_calls_mapped (rs : list GstVideoRectangle) (w : World) :
  is_area_surface_mapped (priv (final (set_render_rectangle_calls rs w)))
  = is_area_surface_mapped (priv w).
Proof.
  revert w. induction rs as [|r rs IH]; intros w.
  - reflexivity.
  - cbn [set_render_rectangle_calls]. rewrite final_bind, IH.
    apply set_render_rectangle_mapped.
Qed.

Lemma set_render_rectangle_calls_last (rs : list GstVideoRectangle)
    (last : GstVideoRectangle) (w : World) :
  render_rectangle (priv (final (set_render_rectangle_calls (rs ++ [last]) w))) = last.
Proof.
  revert w. induction rs as [|r rs IH]; intros w.
  - cbn [app set_render_rectangle_calls]. rewrite final_bind. cbn.
    rewrite set_render_rectangle_stored. destruct last; reflexivity.
  - cbn [app set_render_rectangle_calls]. rewrite final_bind. apply IH.
Qed.

End Geometry.

(** *** [gst_wl_window_commit_buffer] in closed form *)

Section Commit.
Context `{Platform}.

(** A step of a block: the next call is replaced by what it returns. *)
Ltac block_step :=
  first [ rewrite resize_run | rewrite opaque_run | rewrite borders_run
        | rewrite get_used_run | rewrite set_release_run | rewrite attach_run
        | progress cbn ].

Ltac run_block := unfold bind, get, assign, emit, ret, when; repeat block_step.

Lemma apply_video_info_run (i : GstVideoInfo) (w : World) :
  apply_video_info i w
  = (tt,
     mkWorld
       (set_video_rectangle (centered_video_rectangle (video_info_priv i (priv w)))
          (video_info_priv i (priv w)))
       (buffers w),
     wl_subsurface_set_sync video_surface
       :: resize_requests false (video_info_priv i (priv w)) ++ opaque_requests i).
Proof. unfold apply_video_info, video_info_priv. run_block. reflexivity. Qed.

Lemma request_buffer_release_run (b : positive) (w : World) :
  request_buffer_release b w
  = if negb (held_by_compositor w b) && surface_sync (priv w)
    then (tt, mkWorld (priv w) (alter (with_release true) b (buffers w)),
          [zwp_linux_buffer_release_v1_add_listener b])
    else (tt, w, []).
Proof.
  unfold request_buffer_release. run_block.
  destruct (negb (held_by_compositor w b) && surface_sync (priv w)); run_block; reflexivity.
Qed.

Lemma attach_and_commit_video_run (b : positive) (w : World) :
  attach_and_commit_video b w
  = (tt, mkWorld (set_frame_callback true (priv w)) (attached b w),
     wl_surface_frame video_surface
       :: (if held_by_compositor w b then []
           else [wl_surface_attach video_surface (video_buffer b)])
       ++ [wl_surface_set_buffer_scale video_surface (to_gint (scale (priv w)));
           wl_surface_damage_buffer video_surface;
           wl_surface_commit video_surface]).
Proof.
  unfold attach_and_commit_video. run_block.
  unfold attached, held_by_compositor. cbn. reflexivity.
Qed.

Lemma map_area_surface_run (w : World) :
  map_area_surface w
  = if is_area_surface_mapped (priv w) then (tt, w, [])
    else (tt, mkWorld (set_is_area_surface_mapped true (priv w)) (buffers w),
          border_requests (priv w) ++ [wl_surface_commit area_surface; g_signal_emit MAP]).
Proof.
  unfold map_area_surface. run_block.
  destruct (is_area_surface_mapped (priv w)); run_block; reflexivity.
Qed.

Lemma clear_surfaces_run (w : World) :
  clear_surfaces w
  = (tt,
     mkWorld (set_clear_window false (set_is_area_surface_mapped false (priv w)))
       (buffers w),
     [wl_surface_attach video_surface null_buffer;
      wl_surface_set_buffer_scale video_surface (to_gint (scale (priv w)));
      wl_surface_commit video_surface;
      wl_surface_attach area_surface null_buffer;
      wl_surface_commit area_surface]).
Proof. reflexivity. Qed.

Lemma commit_parent_surface_run (w : World) :
  commit_parent_surface w
  = (tt, mkWorld (set_next_video_info None (priv w)) (buffers w),
     [wl_surface_commit area_surface; wl_subsurface_set_desync video_surface]).
Proof. reflexivity. Qed.

Ltac commit_step :=
  first [ progress cbn
        | progress known
        | rewrite apply_video_info_run | rewrite request_buffer_release_run
        | rewrite attach_and_commit_video_run | rewrite map_area_surface_run
        | rewrite clear_surfaces_run | rewrite commit_parent_surface_run
        | rewrite held_alter_release | rewrite held_same_store
        | rewrite final_bind | rewrite value_bind | rewrite trace_bind ].

Opaque bind apply_video_info request_buffer_release attach_and_commit_video
  map_area_surface clear_surfaces commit_parent_surface
  resize_requests border_requests centered_video_rectangle opaque_requests
  held_by_compositor.

Lemma commit_buffer_run (buffer : option positive) (w : World) :
  gst_wl_window_commit_buffer buffer w
  = (tt, mkWorld (commit_priv buffer (priv w)) (commit_store buffer w),
     commit_requests buffer w).
Proof.
  rewrite (run_eq (gst_wl_window_commit_buffer buffer w)).
  rewrite (unit_value (value _)).
  unfold commit_priv, commit_store, commit_requests, pending_priv, pending_requests,
    present_priv, present_requests, parent_requests.
  unfold gst_wl_window_commit_buffer, commit_buffer_from.
  destruct (next_video_info (priv w)) as [i|] eqn:Hi;
    destruct (surface_sync (priv w)) eqn:Hs;
    destruct (is_area_surface_mapped (priv w)) eqn:Hm;
    (destruct buffer as [b|]; [destruct (held_by_compositor w b) eqn:Hh|]).
  all: repeat commit_step.
  all: unfold attached; repeat commit_step.
  all: try reflexivity.
Qed.

Transparent bind apply_video_info request_buffer_release attach_and_commit_video
  map_area_surface clear_surfaces commit_parent_surface
  resize_requests border_requests centered_video_rectangle opaque_requests
  held_by_compositor.

End Commit.
(** *** What a commit does *)

(** The requests of the geometry helpers become variables that carry
    their counts. *)
Ltac split_counts H :=
  cbv zeta in H;
  repeat match type of H with
         | _ /\ _ => let H1 := fresh "Hcount" in destruct H as [H1 H]
         end.

Ltac count_events :=
  repeat first [ rewrite count_app | rewrite count_cons | rewrite count_nil
               | match goal with
                 | E : count ?f ?t = _ |- context [count ?f ?t] => rewrite E
                 end
               | progress cbn ].

Section CommitProperties.
Context `{Platform}.

Lemma commit_buffer_final (buffer : option positive) (w : World) :
  final (gst_wl_window_commit_buffer buffer w)
  = mkWorld (commit_priv buffer (priv w)) (commit_store buffer w).
Proof. rewrite commit_buffer_run. reflexivity. Qed.

Lemma commit_buffer_trace (buffer : option positive) (w : World) :
  trace (gst_wl_window_commit_buffer buffer w) = commit_requests buffer w.
Proof. rewrite commit_buffer_run. reflexivity. Qed.

(** Fields that no commit writes. *)
Lemma commit_priv_kept (buffer : option positive) (p : GstWlWindowPrivate) :
  let q := commit_priv buffer p in
  next_buffer q = next_buffer p /\
  staged_buffer q = staged_buffer p /\
  redraw_pending q = redraw_pending p /\
  Priv.commit_callback q = Priv.commit_callback p /\
  render_rectangle q = render_rectangle p /\
  configured q = configured p /\
  display q = display p /\
  surface_sync q = surface_sync p /\
  scale q = scale p.
Proof.
  unfold commit_priv, present_priv, pending_priv, video_info_priv.
  destruct (next_video_info p), buffer; cbn; split_ifs.
  all: split_conj; reflexivity.
Qed.

Lemma commit_priv_pending_cleared (buffer : option positive) (p : GstWlWindowPrivate) :
  next_video_info (commit_priv buffer p) = None.
Proof.
  unfold commit_priv, present_priv, pending_priv, video_info_priv.
  destruct (next_video_info p) eqn:E, buffer; cbn; split_ifs.
  all: try reflexivity; exact E.
Qed.

(** Counting in the trace of a commit, part by part. *)
Lemma commit_requests_count (f : Event -> bool) (buffer : option positive) (w : World) :
  count f (commit_requests buffer w)
  = (count f (pending_requests (priv w))
     + ((if f (g_mutex_lock commit_lock) then 1 else 0)
        + (count f (present_requests buffer
                      (match buffer with
                       | Some b => held_by_compositor w b
                       | None => false
                       end)
                      (pending_priv (priv w)))
           + (count f (parent_requests (priv w))
              + (if f (g_mutex_unlock commit_lock) then 1 else 0)))))%nat.
Proof.
  unfold commit_requests.
  rewrite count_app, count_cons, count_app, count_app, count_cons, count_nil.
  rewrite Nat.add_0_r. reflexivity.
Qed.

Lemma pending_requests_counts (p : GstWlWindowPrivate) :
  let tr := pending_requests p in
  let once := (if is_set (next_video_info p) then 1 else 0)%nat in
  count is_commit tr = 0%nat /\
  count (is_commit_of area_surface) tr = 0%nat /\
  count (is_commit_of video_surface) tr = 0%nat /\
  count is_video_position tr = once /\
  count is_video_sync tr = once /\
  count is_video_desync tr = 0%nat /\
  count is_opaque_region tr
  = match next_video_info p with
    | Some i => if GST_VIDEO_INFO_HAS_ALPHA i || HAS_DCSS then 0%nat else 1%nat
    | None => 0%nat
    end /\
  count is_window_lock_op tr = 0%nat /\
  count is_frame_request tr = 0%nat /\
  count is_release_listener tr = 0%nat /\
  count is_map_signal tr = 0%nat /\
  count (is_attach_null video_surface) tr = 0%nat /\
  count (is_attach_null area_surface) tr = 0%nat.
Proof.
  unfold pending_requests, opaque_requests.
  destruct (next_video_info p) as [i|]; cbn [is_set].
  - pose proof (resize_requests_counts false (video_info_priv i p)) as Hc.
    generalize dependent (resize_requests false (video_info_priv i p)).
    intros tr Hc. split_counts Hc.
    destruct (GST_VIDEO_INFO_HAS_ALPHA i || HAS_DCSS).
    all: split_conj; count_events; reflexivity.
  - split_conj; reflexivity.
Qed.

Lemma present_requests_counts (buffer : option positive) (held : bool)
    (q : GstWlWindowPrivate) :
  let tr := present_requests buffer held q in
  let first := (if is_set buffer && negb (is_area_surface_mapped q) then 1 else 0)%nat in
  count (is_commit_of video_surface) tr = 1%nat /\
  count (is_commit_of area_surface) tr = (if is_set buffer then first else 1)%nat /\
  count is_video_position tr = 0%nat /\
  count is_video_sync tr = 0%nat /\
  count is_video_desync tr = 0%nat /\
  count is_opaque_region tr = 0%nat /\
  count is_window_lock_op tr = 0%nat /\
  count is_frame_request tr = (if is_set buffer then 1 else 0)%nat /\
  count is_release_listener tr
  = (if is_set buffer && (negb held && surface_sync q) then 1 else 0)%nat /\
  count is_map_signal tr = first /\
  count (is_attach_null video_surface) tr = (if is_set buffer then 0 else 1)%nat /\
  count (is_attach_null area_surface) tr = (if is_set buffer then 0 else 1)%nat.
Proof.
  unfold present_requests.
  destruct buffer as [b|]; cbn [is_set andb].
  - pose proof (border_requests_counts (set_frame_callback true q)) as Hc.
    generalize dependent (border_requests (set_frame_callback true q)).
    intros tr Hc. split_counts Hc.
    destruct held, (surface_sync q), (is_area_surface_mapped q).
    all: split_conj; count_events; reflexivity.
  - split_conj; reflexivity.
Qed.

Lemma parent_requests_counts (p : GstWlWindowPrivate) :
  let tr := parent_requests p in
  let once := (if is_set (next_video_info p) then 1 else 0)%nat in
  count (is_commit_of video_surface) tr = 0%nat /\
  count (is_commit_of area_surface) tr = once /\
  count is_video_position tr = 0%nat /\
  count is_video_sync tr = 0%nat /\
  count is_video_desync tr = once /\
  count is_opaque_region tr = 0%nat /\
  count is_window_lock_op tr = 0%nat /\
  count is_frame_request tr = 0%nat /\
  count is_release_listener tr = 0%nat /\
  count is_map_signal tr = 0%nat /\
  count (is_attach_null video_surface) tr = 0%nat /\
  count (is_attach_null area_surface) tr = 0%nat.
Proof.
  unfold parent_requests.
  destruct (is_set (next_video_info p)); split_conj; reflexivity.
Qed.

(** The counts of the parts are brought in as hypotheses, and a count in
    the whole trace is rewritten with them. *)
Ltac commit_counts buffer w :=
  let Hp := fresh "Hpending" in
  let Hq := fresh "Hpresent" in
  let Hr := fresh "Hparent" in
  pose proof (pending_requests_counts (priv w)) as Hp;
  pose proof (present_requests_counts buffer
                (match buffer with
                 | Some b => held_by_compositor w b
                 | None => false
                 end)
                (pending_priv (priv w))) as Hq;
  pose proof (parent_requests_counts (priv w)) as Hr;
  split_counts Hp; split_counts Hq; split_counts Hr;
  rewrite ?commit_requests_count;
  repeat match goal with
         | E : count ?f ?t = _ |- context [count ?f ?t] => rewrite E
         end.

Lemma commit_requests_no_window_lock (buffer : option positive) (w : World) :
  count is_window_lock_op (commit_requests buffer w) = 0%nat.
Proof. commit_counts buffer w. reflexivity. Qed.

Ltac open_commit_requests :=
  unfold commit_requests, pending_requests, present_requests, parent_requests,
    pending_priv, opaque_requests.

Ltac open_commit_priv :=
  unfold commit_priv, present_priv, pending_priv, video_info_priv.

(** With a video-info pending, a commit applies it once. *)
Lemma commit_applies_video_info (buffer : option positive) (w : World) (i : GstVideoInfo) :
  next_video_info (priv w) = Some i ->
  let q := commit_priv buffer (priv w) in
  let tr := commit_requests buffer w in
  scaled_width q
  = to_gint (gst_util_uint64_scale_int_round (info_width i) (par_n i) (par_d i)) /\
  video_width q = info_width i /\
  video_height q = info_height i /\
  count is_video_sync tr = 1%nat /\
  count is_video_position tr = 1%nat /\
  count is_opaque_region tr
  = (if GST_VIDEO_INFO_HAS_ALPHA i || HAS_DCSS then 0 else 1)%nat /\
  count is_video_desync tr = 1%nat /\
  precedes is_video_sync is_video_position tr = true /\
  precedes is_video_position (is_commit_of area_surface) tr = true /\
  last_events 3 tr
  = [wl_surface_commit area_surface; wl_subsurface_set_desync video_surface;
     g_mutex_unlock commit_lock].
Proof.
  intros Hi q tr. subst q tr.
  split_conj.
  1-3: open_commit_priv; rewrite Hi; destruct buffer; cbn; split_ifs; reflexivity.
  1-4: commit_counts buffer w; rewrite Hi; cbn; rewrite ?Nat.add_0_r; reflexivity.
  - unfold commit_requests, pending_requests. rewrite Hi.
    rewrite <- app_comm_cons. cbn [precedes is_video_sync andb orb].
    rewrite existsb_app, existsb_app, (existsb_count is_video_position (resize_requests _ _)).
    destruct (resize_requests_counts false (video_info_priv i (priv w)))
      as (_ & _ & _ & -> & _).
    reflexivity.
  - unfold commit_requests, parent_requests. rewrite Hi.
    change (is_set (Some i)) with true. cbv iota.
    apply precedes_split.
    + unfold pending_requests. rewrite Hi.
      cbn [existsb]. rewrite existsb_app,
        (existsb_count is_video_position (resize_requests _ _)).
      destruct (resize_requests_counts false (video_info_priv i (priv w)))
        as (_ & _ & _ & -> & _).
      cbn. rewrite ?orb_true_r. reflexivity.
    + cbn [existsb]. rewrite existsb_app. cbn. rewrite ?orb_true_r. reflexivity.
  - unfold commit_requests, parent_requests. rewrite Hi.
    change (is_set (Some i)) with true. cbv iota.
    set (P := pending_requests _). set (X := present_requests _ _ _).
    replace (P ++ g_mutex_lock commit_lock
               :: X ++ [wl_surface_commit area_surface;
                        wl_subsurface_set_desync video_surface]
                    ++ [g_mutex_unlock commit_lock])
      with ((P ++ g_mutex_lock commit_lock :: X)
              ++ [wl_surface_commit area_surface;
                  wl_subsurface_set_desync video_surface;
                  g_mutex_unlock commit_lock])
      by (rewrite <- app_assoc; reflexivity).
    apply (last_events_suffix _ [_; _; _]).
Qed.

Lemma pending_priv_kept (p : GstWlWindowPrivate) :
  is_area_surface_mapped (pending_priv p) = is_area_surface_mapped p /\
  render_rectangle (pending_priv p) = render_rectangle p /\
  surface_sync (pending_priv p) = surface_sync p /\
  frame_callback (pending_priv p) = frame_callback p /\
  clear_window (pending_priv p) = clear_window p.
Proof.
  unfold pending_priv. destruct (next_video_info p); split_conj; reflexivity.
Qed.

(** Without a video-info pending, a commit leaves the video geometry. *)
Lemma commit_without_video_info (buffer : option positive) (w : World) :
  next_video_info (priv w) = None ->
  let q := commit_priv buffer (priv w) in
  let tr := commit_requests buffer w in
  scaled_width q = scaled_width (priv w) /\
  video_width q = video_width (priv w) /\
  video_height q = video_height (priv w) /\
  video_rectangle q = video_rectangle (priv w) /\
  count is_video_sync tr = 0%nat /\
  count is_video_position tr = 0%nat /\
  count is_opaque_region tr = 0%nat /\
  count is_video_desync tr = 0%nat.
Proof.
  intros Hi q tr. subst q tr.
  split_conj.
  1-4: open_commit_priv; rewrite Hi; destruct buffer; cbn; split_ifs; reflexivity.
  all: commit_counts buffer w; rewrite Hi; reflexivity.
Qed.

(** A commit of a buffer. *)
Lemma commit_presents_buffer (b : positive) (w : World) :
  let q := commit_priv (Some b) (priv w) in
  let tr := commit_requests (Some b) w in
  frame_callback q = true /\
  is_area_surface_mapped q = true /\
  clear_window q = clear_window (priv w) /\
  count is_frame_request tr = 1%nat /\
  count (is_commit_of video_surface) tr = 1%nat /\
  count is_release_listener tr
  = (if negb (held_by_compositor w b) && surface_sync (priv w) then 1 else 0)%nat /\
  count is_map_signal tr = (if is_area_surface_mapped (priv w) then 0 else 1)%nat /\
  count (is_attach_null video_surface) tr = 0%nat /\
  count (is_attach_null area_surface) tr = 0%nat /\
  precedes is_frame_request (is_commit_of video_surface) tr = true.
Proof.
  intros q tr. subst q tr.
  destruct (pending_priv_kept (priv w)) as (Hm & _ & Hs & _ & _).
  split_conj.
  1-3: open_commit_priv; destruct (next_video_info (priv w)); cbn; split_ifs;
       reflexivity.
  1-6: commit_counts (Some b) w; rewrite ?Hm, ?Hs; cbn; split_ifs; reflexivity.
  - unfold commit_requests.
    change (pending_requests (priv w) ++ g_mutex_lock commit_lock :: ?X ++ ?R)
      with (pending_requests (priv w) ++ [g_mutex_lock commit_lock] ++ X ++ R).
    rewrite app_assoc. apply precedes_within.
    unfold present_requests.
    destruct (held_by_compositor w b), (surface_sync (pending_priv (priv w)));
      reflexivity.
Qed.

(** A commit without a buffer. *)
Lemma commit_clears_window (w : World) :
  let q := commit_priv None (priv w) in
  let tr := commit_requests None w in
  is_area_surface_mapped q = false /\
  clear_window q = false /\
  frame_callback q = frame_callback (priv w) /\
  count (is_attach_null video_surface) tr = 1%nat /\
  count (is_attach_null area_surface) tr = 1%nat /\
  count is_frame_request tr = 0%nat /\
  count is_release_listener tr = 0%nat /\
  count is_map_signal tr = 0%nat.
Proof.
  intros q tr. subst q tr.
  split_conj.
  1-3: open_commit_priv; destruct (next_video_info (priv w)); reflexivity.
  all: commit_counts (@None positive) w; reflexivity.
Qed.

(** The border is drawn with the first buffer of an unmapped window. *)
Lemma commit_buffer_draws_border (b : positive) (w : World) :
  is_area_surface_mapped (priv w) = false ->
  existsb (draws_border (render_rectangle (priv w)))
    (trace (gst_wl_window_commit_buffer (Some b) w)) = true.
Proof.
  intros Hm. rewrite commit_buffer_trace.
  destruct (pending_priv_kept (priv w)) as (Hm' & Hr & _).
  unfold commit_requests, present_requests. rewrite Hm', Hm.
  pose proof (border_requests_draw (set_frame_callback true (pending_priv (priv w))))
    as Hd.
  change (render_rectangle (set_frame_callback true (pending_priv (priv w))))
    with (render_rectangle (pending_priv (priv w))) in Hd.
  change (is_area_surface_mapped (set_frame_callback true (pending_priv (priv w))))
    with (is_area_surface_mapped (pending_priv (priv w))) in Hd.
  rewrite Hr, Hm' in Hd. specialize (Hd Hm).
  rewrite existsb_app. cbn [existsb]. rewrite !existsb_app, Hd.
  cbn. rewrite ?orb_true_r. reflexivity.
Qed.

(** The buffer store after a commit. *)
Lemma commit_store_lookup (b : positive) (w : World) (s : GstWlBuffer) :
  buffers w !! b = Some s ->
  commit_store (Some b) w !! b
  = Some (if used_by_compositor s then s
          else with_used true
                 (take_ref (if surface_sync (priv w) then with_release true s else s))).
Proof.
  intros Hs. unfold commit_store, held_by_compositor. rewrite Hs. cbn.
  destruct (used_by_compositor s); [exact Hs|].
  rewrite !lookup_alter_eq.
  destruct (surface_sync (priv w)); rewrite ?lookup_alter_eq, Hs; reflexivity.
Qed.

Lemma commit_store_other (buffer : option positive) (b : positive) (w : World) :
  buffer <> Some b -> commit_store buffer w !! b = buffers w !! b.
Proof.
  intros Hne. unfold commit_store.
  destruct buffer as [a|]; [|reflexivity].
  destruct (held_by_compositor w a); [reflexivity|].
  assert (a <> b) by congruence.
  destruct (surface_sync (priv w)); rewrite !lookup_alter_ne by assumption; reflexivity.
Qed.

End CommitProperties.
(** *** The two callbacks in closed form *)

Section Callbacks.
Context `{Platform}.

Ltac callback_step :=
  first [ progress cbn
        | progress known
        | rewrite commit_buffer_run | rewrite unref_if_set_run
        | rewrite final_bind | rewrite value_bind | rewrite trace_bind ].

Opaque bind gst_wl_window_commit_buffer unref_if_set commit_priv commit_store
  commit_requests.

Lemma commit_callback_run (w : World) :
  commit_callback w
  = (tt,
     mkWorld (commit_priv (next_buffer (priv w)) (priv (commit_unlocked w)))
       (unref_store (next_buffer (priv w))
          (commit_store (next_buffer (priv w)) (commit_unlocked w))),
     [wl_callback_destroy the_commit_callback; g_mutex_lock window_lock;
      g_mutex_unlock window_lock]
     ++ commit_requests (next_buffer (priv w)) (commit_unlocked w)).
Proof.
  rewrite (run_eq (commit_callback w)).
  rewrite (unit_value (value _)).
  unfold commit_callback, commit_unlocked, unref_store.
  repeat callback_step.
  rewrite app_nil_r. reflexivity.
Qed.

Lemma frame_redraw_callback_run (w : World) :
  frame_redraw_callback w
  = (tt,
     (if is_set (staged_buffer (priv w)) || clear_window (priv w)
      then
        mkWorld (commit_priv (staged_buffer (priv w)) (priv (frame_unlocked w)))
          (unref_store (staged_buffer (priv w))
             (commit_store (staged_buffer (priv w)) (frame_unlocked w)))
      else
        mkWorld (priv (frame_unlocked w))
          (unref_store (staged_buffer (priv w)) (buffers w))),
     [wl_callback_destroy the_frame_callback; g_mutex_lock window_lock;
      g_cond_signal redraw_wait; g_mutex_unlock window_lock]
     ++ (if is_set (staged_buffer (priv w)) || clear_window (priv w)
         then commit_requests (staged_buffer (priv w)) (frame_unlocked w)
         else [])).
Proof.
  rewrite (run_eq (frame_redraw_callback w)).
  rewrite (unit_value (value _)).
  unfold frame_redraw_callback, frame_unlocked, unref_store, when.
  destruct (is_set (staged_buffer (priv w)) || clear_window (priv w)) eqn:E.
  all: repeat callback_step.
  all: rewrite ?app_nil_r; reflexivity.
Qed.

Transparent bind gst_wl_window_commit_buffer unref_if_set commit_priv commit_store
  commit_requests.

End Callbacks.

Section Interleaving.
Context `{Platform}.

(** With nothing scheduled in between, the interleaved callback is
    [commit_callback]. *)
Lemma commit_callback_alone (w : World) :
  commit_callback_interleaved (ret tt) w = commit_callback w.
Proof.
  rewrite (run_eq (commit_callback_interleaved (ret tt) w)), (run_eq (commit_callback w)).
  unfold commit_callback_interleaved, commit_callback, gst_wl_window_commit_buffer.
  repeat (first [rewrite final_bind | rewrite value_bind | rewrite trace_bind];
          cbn [value final trace fst snd get emit assign ret priv buffers app]).
  rewrite <- ?app_assoc. reflexivity.
Qed.

End Interleaving.
(** ** Lemmas on the state machine *)

Ltac unfold_render :=
  unfold gst_wl_window_render, render_enter, render_wait, render_submit.

Section StateMachine.
Context `{Platform}.

Lemma render_wait_blocks (w : World) (buffer : option positive) :
  redraw_pending (priv w) = true ->
  render_wait buffer w = (Blocked, w, [g_cond_wait redraw_wait window_lock]).
Proof.
  intros Hp. unfold render_wait, bind, get. cbn. rewrite Hp. reflexivity.
Qed.

Lemma render_wait_returns (w : World) (buffer : option positive) :
  redraw_pending (priv w) = false ->
  value (render_wait buffer w) = Returned (negb (both_slots_occupied w)).
Proof.
  intros Hp. unfold both_slots_occupied. unfold_render. unfold_window. cbn. rewrite Hp.
  destruct (next_buffer (priv w)), (staged_buffer (priv w)), buffer; reflexivity.
Qed.

Lemma render_submit_both (w : World) (buffer : option positive) (n s : positive) :
  next_buffer (priv w) = Some n ->
  staged_buffer (priv w) = Some s ->
  let r := render_submit buffer w in
  value r = false /\
  next_buffer (priv (final r)) = Some n /\
  staged_buffer (priv (final r)) = buffer /\
  buffers (final r)
  = alter drop_ref s (buffers w).
Proof.
  intros Hn Hs. unfold render_submit. unfold_window. cbn. rewrite Hn, Hs. cbn.
  rewrite ?Hn. destruct buffer; cbn; auto.
Qed.

Lemma render_enter_buffers (w : World) (buffer : option positive) (info : option GstVideoInfo) :
  buffers (final (render_enter buffer info w))
  = match buffer with
    | Some b => alter take_ref b (buffers w)
    | None => buffers w
    end.
Proof. unfold render_enter. unfold_window. destruct buffer, info; reflexivity. Qed.

Lemma render_wait_submits (w : World) (buffer : option positive) :
  redraw_pending (priv w) = false ->
  final (render_wait buffer w) = final (render_submit buffer w).
Proof.
  intros Hp. unfold render_wait. rewrite final_bind. cbn. rewrite Hp.
  rewrite final_bind. reflexivity.
Qed.

Lemma render_enter_slots (w : World) (buffer : option positive) (info : option GstVideoInfo) :
  let e := final (render_enter buffer info w) in
  next_buffer (priv e) = next_buffer (priv w) /\
  staged_buffer (priv e) = staged_buffer (priv w) /\
  redraw_pending (priv e) = redraw_pending (priv w).
Proof. unfold render_enter. unfold_window. destruct buffer, info; cbn; auto. Qed.

Lemma render_value (w : World) (buffer : option positive) (info : option GstVideoInfo) :
  value (gst_wl_window_render buffer info w)
  = if redraw_pending (priv w) then Blocked
    else Returned (negb (both_slots_occupied w)).
Proof.
  unfold gst_wl_window_render. rewrite value_bind.
  destruct (render_enter_slots w buffer info) as (Hn & Hs & Hp).
  destruct (redraw_pending (priv w)) eqn:E.
  - rewrite render_wait_blocks by congruence. reflexivity.
  - rewrite render_wait_returns by congruence.
    unfold both_slots_occupied. rewrite Hn, Hs. reflexivity.
Qed.

Lemma render_wait_video_info (w : World) (buffer : option positive) :
  next_video_info (priv (final (render_wait buffer w))) = next_video_info (priv w).
Proof.
  unfold render_wait, render_submit. unfold_window. cbn.
  destruct (redraw_pending (priv w)), (next_buffer (priv w)),
    (staged_buffer (priv w)), buffer; reflexivity.
Qed.

Lemma render_stores_video_info (w : World) (buffer : option positive) (i : GstVideoInfo) :
  next_video_info (priv (final (gst_wl_window_render buffer (Some i) w))) = Some i.
Proof.
  unfold gst_wl_window_render. rewrite final_bind, render_wait_video_info.
  unfold render_enter. unfold_window. destruct buffer; reflexivity.
Qed.

Lemma render_calls_last (calls : list (option positive * GstVideoInfo))
    (buffer : option positive) (i : GstVideoInfo) (w : World) :
  next_video_info (priv (final (render_calls (calls ++ [(buffer, i)]) w))) = Some i.
Proof.
  revert w. induction calls as [|[b j] calls IH]; intros w.
  - cbn [app render_calls]. rewrite final_bind. cbn.
    apply render_stores_video_info.
  - cbn [app render_calls]. rewrite final_bind. apply IH.
Qed.

(** *** Teardown in closed form *)

Lemma when_emit_run (c : bool) (e : Event) (w : World) :
  when c (emit e) w = (tt, w, if c then [e] else []).
Proof. destruct c; reflexivity. Qed.

Lemma callback_destroy_run (c : callback) (pending : bool) (w : World) :
  gst_wl_display_callback_destroy c pending w
  = (tt, w, if pending then [wl_callback_destroy c] else []).
Proof. destruct pending; reflexivity. Qed.

Ltac finalize_step :=
  first [ progress cbn
        | rewrite when_emit_run | rewrite callback_destroy_run
        | rewrite unref_if_set_run
        | rewrite final_bind | rewrite value_bind | rewrite trace_bind ].

Opaque bind when gst_wl_display_callback_destroy unref_if_set.

Lemma finalize_run (w : World) :
  gst_wl_window_finalize w
  = (tt,
     mkWorld (finalize_priv (priv w)) (unref_store (staged_buffer (priv w)) (buffers w)),
     finalize_requests (priv w)).
Proof.
  rewrite (run_eq (gst_wl_window_finalize w)).
  rewrite (unit_value (value _)).
  unfold gst_wl_window_finalize, finalize_priv, finalize_requests, unref_store.
  repeat finalize_step.
  reflexivity.
Qed.

Transparent bind when gst_wl_display_callback_destroy unref_if_set.

Lemma finalize_signals_then_clears (w : World) :
  redraw_pending (priv (final (gst_wl_window_finalize w))) = false /\
  precedes is_redraw_signal is_clear (trace (gst_wl_window_finalize w)) = true /\
  buffers (final (gst_wl_window_finalize w))
  = unref_store (staged_buffer (priv w)) (buffers w).
Proof.
  rewrite finalize_run. cbn [final trace fst snd priv buffers]. split_conj.
  - reflexivity.
  - unfold finalize_requests.
    rewrite (app_assoc (if frame_callback (priv w) then _ else _)).
    apply precedes_within. reflexivity.
  - reflexivity.
Qed.

(** *** [gst_wl_window_render] in closed form *)

Lemma render_enter_run (buffer : option positive) (info : option GstVideoInfo)
    (w : World) :
  render_enter buffer info w
  = (tt, render_entered buffer info w, [g_mutex_lock window_lock]).
Proof.
  unfold render_enter, render_entered. unfold_window.
  destruct buffer, info; cbn; rewrite ?world_eta; reflexivity.
Qed.

Lemma render_wait_run (buffer : option positive) (w : World) :
  render_wait buffer w
  = if redraw_pending (priv w)
    then (Blocked, w, [g_cond_wait redraw_wait window_lock])
    else (Returned (negb (both_slots_occupied w)),
          mkWorld (submit_priv buffer (priv w))
            (if both_slots_occupied w
             then unref_store (staged_buffer (priv w)) (buffers w)
             else buffers w),
          submit_requests (priv w)).
Proof.
  unfold render_wait, render_submit, submit_priv, submit_requests,
    both_slots_occupied, unref_store.
  unfold_window. cbn.
  destruct (redraw_pending (priv w)); [reflexivity|].
  destruct (next_buffer (priv w)), (staged_buffer (priv w)), buffer; reflexivity.
Qed.

Lemma render_run (buffer : option positive) (info : option GstVideoInfo) (w : World) :
  gst_wl_window_render buffer info w
  = (value (render_wait buffer (render_entered buffer info w)),
     final (render_wait buffer (render_entered buffer info w)),
     g_mutex_lock window_lock
       :: trace (render_wait buffer (render_entered buffer info w))).
Proof.
  unfold gst_wl_window_render. unfold bind at 1. rewrite render_enter_run.
  destruct (render_wait buffer (render_entered buffer info w)) as [[v w'] t].
  reflexivity.
Qed.

Lemma render_entered_slots (buffer : option positive) (info : option GstVideoInfo)
    (w : World) :
  next_buffer (priv (render_entered buffer info w)) = next_buffer (priv w) /\
  staged_buffer (priv (render_entered buffer info w)) = staged_buffer (priv w) /\
  redraw_pending (priv (render_entered buffer info w)) = redraw_pending (priv w).
Proof. destruct info; split_conj; reflexivity. Qed.

(** *** The slots of a window in use *)

Lemma slots_idle_fields (w : World) :
  slots_idle w = true <->
  staged_buffer (priv w) = None /\
  (redraw_pending (priv w) = false -> next_buffer (priv w) = None).
Proof.
  unfold slots_idle.
  destruct (staged_buffer (priv w)), (redraw_pending (priv w)), (next_buffer (priv w));
    cbn; split; intros Hi.
  all: try discriminate; try (split; [reflexivity | intros; congruence]).
  all: destruct Hi as [Hs Hn]; try discriminate; try reflexivity.
  all: specialize (Hn eq_refl); discriminate.
Qed.

Lemma slots_idle_same (w w' : World) :
  next_buffer (priv w') = next_buffer (priv w) ->
  staged_buffer (priv w') = staged_buffer (priv w) ->
  redraw_pending (priv w') = redraw_pending (priv w) ->
  slots_idle w' = slots_idle w.
Proof. unfold slots_idle. intros -> -> ->. reflexivity. Qed.

Lemma slots_idle_init (d : GstWlDisplay) (store : gmap positive GstWlBuffer) :
  slots_idle (mkWorld (gst_wl_window_init d) store) = true.
Proof. reflexivity. Qed.

Lemma render_wait_slots_idle (buffer : option positive) (w : World) :
  slots_idle w = true -> slots_idle (final (render_wait buffer w)) = true.
Proof.
  intros Hi. rewrite render_wait_run.
  destruct (redraw_pending (priv w)) eqn:Hp; [exact Hi|].
  apply slots_idle_fields in Hi as [Hs Hn]. specialize (Hn Hp).
  unfold slots_idle, submit_priv. cbn [final fst snd priv].
  rewrite Hn. destruct buffer; cbn; rewrite Hs; reflexivity.
Qed.

Lemma step_slots_idle (a : action) (w : World) :
  slots_idle w = true -> slots_idle (final (step a w)) = true.
Proof.
  intros Hi. destruct a as [buffer info|buffer| | |r|e]; cbn [step].
  - rewrite final_bind. cbn [ret final fst snd]. rewrite render_run.
    cbn [final fst snd]. apply render_wait_slots_idle.
    destruct (render_entered_slots buffer info w) as (Hn & Hs & Hp).
    rewrite (slots_idle_same w _ Hn Hs Hp). exact Hi.
  - rewrite final_bind. cbn [ret final fst snd]. apply render_wait_slots_idle.
    exact Hi.
  - rewrite commit_callback_run. cbn [final fst snd].
    destruct (commit_priv_kept (next_buffer (priv w)) (priv (commit_unlocked w)))
      as (Hn & Hs & Hp & _).
    rewrite <- Hi. apply slots_idle_same; assumption.
  - rewrite frame_redraw_callback_run. cbn [final fst snd].
    apply slots_idle_fields in Hi as [Hs Hn].
    rewrite Hs. cbn [is_set orb].
    destruct (clear_window (priv w)).
    + destruct (commit_priv_kept None (priv (frame_unlocked w))) as (Hn' & Hs' & Hp' & _).
      unfold slots_idle. cbn [priv]. rewrite Hn', Hs', Hp'. cbn. rewrite Hs. reflexivity.
    + unfold slots_idle. cbn. rewrite Hs. reflexivity.
  - rewrite set_render_rectangle_run.
    destruct (rect_eqb _ _); [exact Hi|]. cbn [final fst snd].
    destruct (geometry_priv_fields
                (set_render_rectangle
                   (mkRect (rect_x r) (rect_y r) (rect_w r) (rect_h r)) (priv w)))
      as (_ & _ & _ & Hn & Hs & Hp & _).
    rewrite <- Hi. apply slots_idle_same; assumption.
  - destruct e as [width height|serial]; cbn [dispatch].
    + unfold handle_xdg_toplevel_configure.
      destruct ((width <=? 2 * RESIZE_MARGIN) || (height <=? 2 * RESIZE_MARGIN));
        [exact Hi|].
      repeat (rewrite final_bind; cbn [emit final fst snd]).
      rewrite set_render_rectangle_run.
      destruct (rect_eqb _ _); [exact Hi|]. cbn [final fst snd].
      destruct (geometry_priv_fields
                  (set_render_rectangle (mkRect 0 0 width height) (priv w)))
        as (_ & _ & _ & Hn & Hs & Hp & _).
      rewrite <- Hi. apply slots_idle_same; assumption.
    + unfold handle_xdg_surface_configure.
      repeat (rewrite final_bind; cbn [emit assign final fst snd]).
      exact Hi.
Qed.

Lemma run_slots_idle (history : list action) (w : World) :
  slots_idle w = true -> slots_idle (final (run history w)) = true.
Proof.
  revert w. induction history as [|a rest IH]; intros w Hi.
  - exact Hi.
  - cbn [run]. rewrite final_bind. apply IH, step_slots_idle, Hi.
Qed.

End StateMachine.

(** ** Lemmas on the constructor *)

Section Constructor.
Context `{Platform}.

(** The wait is left between the time it is entered and the timeout. *)
Lemma await_configure_time (timeout : Z) (future : list (Z * happening)) :
  forall (now : Z) (w : World),
    now <= timeout ->
    now <= value (await_configure timeout now future w) <= timeout.
Proof.
  induction future as [|[t h] rest IH]; intros now w Hnow.
  - cbn [await_configure]. rewrite value_bind. cbn. lia.
  - cbn [await_configure]. destruct (timeout <=? t) eqn:Et.
    + rewrite value_bind. cbn. lia.
    + apply Z.leb_gt in Et. destruct h as [e|].
      * rewrite value_bind, value_bind. cbn [value final get fst snd].
        destruct (configured (priv (final (dispatch e w)))).
        -- cbn. lia.
        -- assert (Hm : Z.max now t <= timeout) by lia.
           specialize (IH (Z.max now t) (final (dispatch e w)) Hm). lia.
      * rewrite value_bind. cbn [value emit fst final snd].
        assert (Hm : Z.max now t <= timeout) by lia.
        specialize (IH (Z.max now t) w Hm). lia.
Qed.

(** The wait is left with [configured] set or with the warning. *)
Lemma await_configure_warns (timeout : Z) (future : list (Z * happening)) :
  forall (now : Z) (w : World),
    configured (priv (final (await_configure timeout now future w))) = false ->
    In configure_warning (trace (await_configure timeout now future w)).
Proof.
  induction future as [|[t h] rest IH]; intros now w Hc.
  - cbn [await_configure]. rewrite trace_bind. left. reflexivity.
  - cbn [await_configure] in *. destruct (timeout <=? t).
    + rewrite trace_bind. left. reflexivity.
    + destruct h as [e|].
      * rewrite trace_bind. cbv beta. rewrite trace_bind.
        cbn [value final trace get fst snd app].
        rewrite final_bind in Hc. cbv beta in Hc. rewrite final_bind in Hc.
        cbn [value final trace get fst snd] in Hc.
        apply in_or_app. right.
        destruct (configured (priv (final (dispatch e w)))) eqn:E.
        -- cbn in Hc. congruence.
        -- apply IH. exact Hc.
      * rewrite trace_bind. rewrite final_bind in Hc.
        apply in_or_app. right. apply IH. exact Hc.
Qed.

Ltac tidy := cbn [value final trace fst snd get emit assign ret priv buffers app].
Ltac tidy_in H :=
  cbn [value final trace fst snd get emit assign ret priv buffers app] in H.

Lemma handshake_time (env : Environment) (w : World) :
  g_get_monotonic_time env
  <= value (xdg_configure_handshake env w)
  <= g_get_monotonic_time env + 100 * G_TIME_SPAN_MILLISECOND.
Proof.
  unfold xdg_configure_handshake.
  repeat (rewrite value_bind; tidy).
  match goal with
  | |- context [if ?c then _ else _] => destruct c
  end.
  - tidy. unfold G_TIME_SPAN_MILLISECOND. lia.
  - rewrite value_bind. tidy.
    apply await_configure_time. unfold G_TIME_SPAN_MILLISECOND. lia.
Qed.

Lemma handshake_warns (env : Environment) (w : World) :
  configured (priv (final (xdg_configure_handshake env w))) = false ->
  In configure_warning (trace (xdg_configure_handshake env w)).
Proof.
  unfold xdg_configure_handshake. intros Hc.
  repeat (rewrite final_bind in Hc; tidy_in Hc).
  repeat (rewrite trace_bind; tidy).
  match goal with
  | |- context [if ?c then _ else _] => destruct c eqn:E
  end.
  - tidy_in Hc. congruence.
  - rewrite final_bind in Hc. tidy_in Hc. rewrite trace_bind. tidy.
    apply await_configure_warns in Hc.
    repeat (rewrite ?in_app_iff; cbn [In]). tauto.
Qed.

Lemma initial_render_rectangle_configured (d : GstWlDisplay) (info : GstVideoInfo)
    (w : World) :
  configured (priv (final (initial_render_rectangle d info w))) = configured (priv w).
Proof.
  unfold initial_render_rectangle. rewrite final_bind. tidy. unfold id.
  destruct ((0 <? preferred_width d) && (0 <? preferred_height d));
    [|destruct (fullscreen_width (priv w) <=? 0)].
  all: apply set_render_rectangle_configured.
Qed.

Lemma ensure_fullscreen_run (fullscreen : bool) (w : World) :
  gst_wl_window_ensure_fullscreen fullscreen w
  = (tt, w, [if fullscreen then xdg_toplevel_set_fullscreen
             else xdg_toplevel_unset_fullscreen]).
Proof. destruct fullscreen; reflexivity. Qed.

(** Under the xdg shell, with the xdg objects obtained, the constructor
    returns a window, and it has logged the warning when the window is
    not configured. *)
Lemma new_toplevel_xdg (d : GstWlDisplay) (info : GstVideoInfo) (fullscreen : bool)
    (env : Environment) (w : World) :
  xdg_wm_base d = true ->
  xdg_wm_base_get_xdg_surface env = true ->
  xdg_surface_get_toplevel env = true ->
  value (gst_wl_window_new_toplevel d info fullscreen env w) = true /\
  (configured (priv (final (gst_wl_window_new_toplevel d info fullscreen env w))) = false ->
   In configure_warning (trace (gst_wl_window_new_toplevel d info fullscreen env w))).
Proof.
  intros Hx Hs Ht. unfold gst_wl_window_new_toplevel.
  rewrite Hx, Hs, Ht. cbn [negb].
  assert (Hok : forall w1,
             value ((assign (set_xdg_surface true);;
                     assign (set_xdg_toplevel true);;
                     emit xdg_toplevel_set_app_id;;
                     when (pointer d) (emit wl_pointer_add_listener);;
                     when (touch d) (emit wl_touch_add_listener);;
                     gst_wl_window_ensure_fullscreen fullscreen;;
                     xdg_configure_handshake env;; ret true) w1) = true).
  { intros w1. repeat (rewrite value_bind; tidy). reflexivity. }
  split.
  - rewrite value_bind. cbv beta. rewrite value_bind. cbv beta. rewrite Hok.
    rewrite value_bind. reflexivity.
  - intros Hc.
    rewrite final_bind in Hc. cbv beta in Hc. rewrite final_bind in Hc.
    cbv beta in Hc. rewrite Hok in Hc. rewrite final_bind in Hc. tidy_in Hc.
    rewrite trace_bind. cbv beta. rewrite trace_bind. cbv beta.
    apply in_or_app. right. apply in_or_app. left.
    assert (Hh : configured
                   (priv (final
                      ((assign (set_xdg_surface true);;
                        assign (set_xdg_toplevel true);;
                        emit xdg_toplevel_set_app_id;;
                        when (pointer d) (emit wl_pointer_add_listener);;
                        when (touch d) (emit wl_touch_add_listener);;
                        gst_wl_window_ensure_fullscreen fullscreen;;
                        xdg_configure_handshake env;; ret true)
                         (final (gst_wl_window_new_internal d (shell_size env) w)))))
                 = false).
    { match type of Hc with
      | context [when ?c _] => destruct c; unfold when in Hc
      end.
      - rewrite initial_render_rectangle_configured in Hc. exact Hc.
      - exact Hc. }
    clear Hc. revert Hh.
    generalize (final (gst_wl_window_new_internal d (shell_size env) w)).
    intros w1 Hh.
    repeat (rewrite final_bind in Hh; tidy_in Hh;
            rewrite ?when_emit_run, ?ensure_fullscreen_run in Hh; tidy_in Hh).
    repeat (rewrite trace_bind; tidy;
            rewrite ?when_emit_run, ?ensure_fullscreen_run; tidy).
    apply handshake_warns in Hh.
    repeat (rewrite ?in_app_iff; cbn [In]). tauto.
Qed.

End Constructor.
(** ** The claims on geometry *)

(** C10.  A toplevel configure event that proposes a width or a height
    of at most twice the resize margin (40 pixels) is ignored: the
    handler leaves the whole window as it is and sends nothing.  With
    both dimensions above 40 the render rectangle becomes
    (0, 0, width, height). *)
Theorem small_toplevel_configure_ignored `{Platform} (w : World) (width height : Z) :
  2 * RESIZE_MARGIN = 40 /\
  (width <= 40 \/ height <= 40 ->
   handle_xdg_toplevel_configure width height w = (tt, w, [])) /\
  (40 < width /\ 40 < height ->
   render_rectangle (priv (final (handle_xdg_toplevel_configure width height w)))
   = mkRect 0 0 width height).
Proof.
  split; [reflexivity|]. unfold handle_xdg_toplevel_configure.
  change (2 * RESIZE_MARGIN) with 40. split.
  - intros Hsmall.
    destruct (orb_true_iff (width <=? 40) (height <=? 40)) as [_ ->]; [reflexivity|].
    rewrite !Z.leb_le. exact Hsmall.
  - intros [Hw Hh].
    destruct (orb_false_iff (width <=? 40) (height <=? 40)) as [_ ->].
    + rewrite final_bind. cbn. rewrite final_bind. cbn.
      apply set_render_rectangle_stored.
    + rewrite !Z.leb_gt. split; assumption.
Qed.

Lemma small_toplevel_configure_ignored_witness :
  handle_xdg_toplevel_configure (H := sample_platform) 40 600 fresh_world
  = (tt, fresh_world, [])
  /\ render_rectangle
       (priv (final (handle_xdg_toplevel_configure (H := sample_platform) 800 600 fresh_world)))
     = mkRect 0 0 800 600.
Proof.
  destruct (small_toplevel_configure_ignored (H := sample_platform) fresh_world 40 600)
    as (_ & Hignored & _).
  destruct (small_toplevel_configure_ignored (H := sample_platform) fresh_world 800 600)
    as (_ & _ & Hstored).
  split.
  - apply Hignored. left. lia.
  - apply Hstored. lia.
Defined.

(** C6.  [gst_wl_window_set_render_rectangle] with the rectangle the
    window already has changes nothing and sends nothing; a second
    identical call therefore adds nothing to the first, and when the
    first call changes the rectangle of a configured window the two
    calls together commit the area surface exactly once. *)
Theorem set_render_rectangle_idempotent `{Platform} (w : World) (x y width height : Z) :
  let call := gst_wl_window_set_render_rectangle x y width height in
  (render_rectangle (priv w) = mkRect x y width height -> call w = (tt, w, [])) /\
  (call;; call) w = (tt, final (call w), trace (call w)) /\
  (render_rectangle (priv w) <> mkRect x y width height ->
   configured (priv w) = true ->
   count (is_commit_of area_surface) (trace ((call;; call) w)) = 1%nat).
Proof.
  intros call.
  assert (Htwice : (call;; call) w = (tt, final (call w), trace (call w))).
  { unfold bind. destruct (call w) as [[[] w1] t1] eqn:E. cbn.
    assert (Hst : render_rectangle (priv w1) = mkRect x y width height).
    { change w1 with (final (tt, w1, t1)). rewrite <- E.
      apply set_render_rectangle_stored. }
    unfold call at 1. rewrite (set_render_rectangle_same _ _ _ _ _ Hst).
    rewrite app_nil_r. reflexivity. }
  split; [|split].
  - apply set_render_rectangle_same.
  - exact Htwice.
  - intros Hne Hc. rewrite Htwice. apply set_render_rectangle_changed; assumption.
Qed.

Lemma set_render_rectangle_idempotent_witness :
  gst_wl_window_set_render_rectangle (H := sample_platform) 0 0 0 0 fresh_world
  = (tt, fresh_world, [])
  /\ count (is_commit_of area_surface)
       (trace ((gst_wl_window_set_render_rectangle (H := sample_platform) 10 10 100 100;;
                gst_wl_window_set_render_rectangle (H := sample_platform) 10 10 100 100)
                 fresh_world)) = 1%nat.
Proof.
  destruct (set_render_rectangle_idempotent (H := sample_platform) fresh_world 0 0 0 0)
    as (Hsame & _ & _).
  destruct (set_render_rectangle_idempotent (H := sample_platform) fresh_world 10 10 100 100)
    as (_ & _ & Hone).
  split.
  - apply Hsame. reflexivity.
  - apply Hone.
    + discriminate.
    + reflexivity.
Defined.

(** C7.  [gst_wl_window_set_source_crop] stores the crop rectangle of
    the buffer's crop metadata (its unsigned fields converted to [gint]);
    for a buffer without crop metadata it sets the source width to the
    sentinel -1, also when the buffer before had left a crop. *)
Theorem set_source_crop_from_metadata (w : World) (crop previous : GstVideoCropMeta) :
  let stored := priv (final (gst_wl_window_set_source_crop (Some crop) w)) in
  let reset := priv (final (gst_wl_window_set_source_crop None w)) in
  let after_previous :=
    priv (final ((gst_wl_window_set_source_crop (Some previous);;
                  gst_wl_window_set_source_crop None) w)) in
  (src_x stored, src_y stored, src_width stored, src_height stored)
  = (to_gint (crop_x crop), to_gint (crop_y crop),
     to_gint (crop_width crop), to_gint (crop_height crop)) /\
  (0 <= crop_width crop < 2 ^ 31 -> src_width stored = crop_width crop) /\
  src_width reset = -1 /\
  src_width after_previous = -1.
Proof.
  unfold gst_wl_window_set_source_crop, bind, assign. cbn.
  split_conj; try reflexivity.
  intros Hrange. unfold to_gint.
  rewrite Z.mod_small by lia. lia.
Qed.

Lemma set_source_crop_from_metadata_witness :
  src_width
    (priv (final (gst_wl_window_set_source_crop (Some (mkCrop 16 8 320 240)) fresh_world)))
  = 320.
Proof.
  destruct (set_source_crop_from_metadata fresh_world (mkCrop 16 8 320 240) (mkCrop 0 0 0 0))
    as (_ & Hrange & _).
  apply Hrange. cbn. lia.
Defined.

(** C5.  While the window is not configured, calls of
    [gst_wl_window_set_render_rectangle] commit no surface and leave
    the last rectangle stored; the configure event then sets
    [configured], commits nothing itself and keeps that rectangle, and
    what is applied afterwards is the last rectangle: the next geometry
    update commits the area surface, and the first buffer commit of an
    unmapped window draws the border at the last rectangle's size. *)
Theorem render_rectangle_held_until_configured `{Platform} (w : World)
    (rs : list GstVideoRectangle) (last : GstVideoRectangle) (serial : Z) (b : positive) :
  configured (priv w) = false ->
  let stored := set_render_rectangle_calls (rs ++ [last]) w in
  let acked := handle_xdg_surface_configure serial (final stored) in
  count is_commit (trace stored) = 0%nat /\
  configured (priv (final stored)) = false /\
  render_rectangle (priv (final stored)) = last /\
  count is_commit (trace acked) = 0%nat /\
  configured (priv (final acked)) = true /\
  render_rectangle (priv (final acked)) = last /\
  count (is_commit_of area_surface)
    (trace (gst_wl_window_update_geometry (final acked))) = 1%nat /\
  (is_area_surface_mapped (priv w) = false ->
   existsb (draws_border last)
     (trace (gst_wl_window_commit_buffer (Some b) (final acked))) = true).
Proof.
  intros Hc stored acked.
  destruct (set_render_rectangle_calls_unconfigured (rs ++ [last]) w Hc) as [Ht Hcf].
  pose proof (set_render_rectangle_calls_last rs last w) as Hlast.
  fold stored in Ht, Hcf, Hlast.
  assert (Hacked : priv (final acked) = set_configured true (priv (final stored))
                   /\ trace acked = [xdg_surface_ack_configure serial;
                                     g_mutex_lock configure_mutex;
                                     g_cond_signal configure_cond;
                                     g_mutex_unlock configure_mutex]).
  { unfold acked, handle_xdg_surface_configure. split.
    - repeat (rewrite final_bind; cbn). reflexivity.
    - repeat (rewrite trace_bind; cbn). reflexivity. }
  destruct Hacked as [Hp Htr].
  repeat match goal with |- _ /\ _ => split end.
  - exact Ht.
  - exact Hcf.
  - exact Hlast.
  - rewrite Htr. reflexivity.
  - rewrite Hp. reflexivity.
  - rewrite Hp. exact Hlast.
  - rewrite geometry_run. apply geometry_requests_configured.
    rewrite Hp. reflexivity.
  - intros Hm. rewrite <- Hlast.
    replace (render_rectangle (priv (final stored)))
      with (render_rectangle (priv (final acked))) by (rewrite Hp; reflexivity).
    apply commit_buffer_draws_border. rewrite Hp.
    change (is_area_surface_mapped (set_configured true (priv (final stored))))
      with (is_area_surface_mapped (priv (final stored))).
    unfold stored. rewrite set_render_rectangle_calls_mapped. exact Hm.
Qed.

Lemma render_rectangle_held_until_configured_witness :
  let stored :=
    set_render_rectangle_calls (H := sample_platform)
      [mkRect 0 0 640 480; mkRect 0 0 800 600; mkRect 5 5 320 240] unconfigured_world in
  count is_commit (trace stored) = 0%nat /\
  render_rectangle (priv (final stored)) = mkRect 5 5 320 240.
Proof.
  destruct (render_rectangle_held_until_configured (H := sample_platform)
              unconfigured_world [mkRect 0 0 640 480; mkRect 0 0 800 600]
              (mkRect 5 5 320 240) 1 1%positive)
    as (Hnone & _ & Hlast & _); [reflexivity|].
  split; [exact Hnone | exact Hlast].
Defined.


(** ** The claims on the presentation state machine *)



(** C2.  Each time it fires, [frame_redraw_callback] moves the staged
    buffer (or nothing) into the in-flight slot, empties the staged slot,
    clears [redraw_pending] and signals [redraw_wait] under
    [window_lock]; a call of [gst_wl_window_render] that waited on the
    condition then goes on and returns.  After the unlock, and only when
    a buffer was promoted or [clear_window] is set, it runs
    [gst_wl_window_commit_buffer] on the promoted buffer; nothing in that
    commit locks, unlocks or waits with [window_lock]. *)
Theorem frame_callback_promotes_staged_buffer `{Platform} (w : World)
    (buffer : option positive) :
  let staged := staged_buffer (priv w) in
  let fired := frame_redraw_callback w in
  let commit := gst_wl_window_commit_buffer staged (frame_unlocked w) in
  next_buffer (priv (final fired)) = staged /\
  staged_buffer (priv (final fired)) = None /\
  redraw_pending (priv (final fired)) = false /\
  value (render_wait buffer (final fired)) = Returned true /\
  trace fired
  = [wl_callback_destroy the_frame_callback; g_mutex_lock window_lock;
     g_cond_signal redraw_wait; g_mutex_unlock window_lock]
    ++ (if is_set staged || clear_window (priv w) then trace commit else []) /\
  count is_window_lock_op (trace commit) = 0%nat.
Proof.
  intros staged fired commit.
  assert (Hslots : next_buffer (priv (final fired)) = staged /\
                   staged_buffer (priv (final fired)) = None /\
                   redraw_pending (priv (final fired)) = false).
  { unfold fired. rewrite frame_redraw_callback_run. cbn [final fst snd].
    destruct (is_set (staged_buffer (priv w)) || clear_window (priv w)).
    - cbn [priv].
      destruct (commit_priv_kept (staged_buffer (priv w)) (priv (frame_unlocked w)))
        as (-> & -> & -> & _).
      split_conj; reflexivity.
    - split_conj; reflexivity. }
  destruct Hslots as (Hn & Hs & Hp).
  split_conj.
  - exact Hn.
  - exact Hs.
  - exact Hp.
  - rewrite render_wait_returns by exact Hp.
    unfold both_slots_occupied. rewrite Hs, andb_false_r. reflexivity.
  - unfold fired, commit. rewrite frame_redraw_callback_run, commit_buffer_trace.
    reflexivity.
  - unfold commit. rewrite commit_buffer_trace.
    apply commit_requests_no_window_lock.
Qed.




(** C4.  The video-info of a [gst_wl_window_render] call that lands
    while [commit_callback] is between its read of the pending
    video-info and the end of its commit is never applied.  On a fresh
    window, buffer 1 is rendered with a 640 x 480 video-info; the display
    thread runs [commit_callback] and has read that video-info when the
    streaming thread calls [gst_wl_window_render] with buffer 2 and a
    1280 x 720 video-info: the call stores its video-info and waits.  The
    commit applies 640 x 480 and clears the pending marker, and the
    1280 x 720 video-info with it.  After the frame callback the waiting
    call goes on, and the commit of buffer 2 finds nothing pending: it
    positions nothing, and the window keeps the sizes of the first
    video-info. *)
Theorem render_during_commit_loses_video_info :
  let racing :=
    commit_callback_interleaved (H := sample_platform)
      (gst_wl_window_render (Some 2%positive) (Some wide_info);; ret tt)%wl
      in_flight_world in
  let shown := frame_redraw_callback (H := sample_platform) (final racing) in
  let resumed := render_wait (Some 2%positive) (final shown) in
  let second := commit_callback (H := sample_platform) (final resumed) in
  next_video_info (priv in_flight_world) = Some sample_info /\
  commit_callback_interleaved (H := sample_platform) (ret tt) in_flight_world
  = commit_callback (H := sample_platform) in_flight_world /\
  next_video_info (priv (final racing)) = None /\
  (video_width (priv (final racing)), video_height (priv (final racing))) = (640, 480) /\
  value resumed = Returned true /\
  next_buffer (priv (final resumed)) = Some 2%positive /\
  next_video_info (priv (final resumed)) = None /\
  count is_video_position (trace second) = 0%nat /\
  count (is_commit_of video_surface) (trace second) = 1%nat /\
  (video_width (priv (final second)), video_height (priv (final second))) = (640, 480).
Proof. vm_compute. split_conj; reflexivity. Qed.





(** ** Further properties of the state machine *)

Section Cycle.
Context `{Platform}.

Lemma immediate_release_run (b : positive) (w : World) :
  buffer_immediate_release b w
  = (tt,
     mkWorld (priv w)
       (alter drop_ref b (alter (with_release false) b (alter (with_used false) b (buffers w)))),
     [zwp_linux_buffer_release_v1_destroy b]).
Proof. reflexivity. Qed.

Lemma fenced_release_run (b : positive) (fence : Z) (w : World) :
  buffer_fenced_release b fence w
  = (tt,
     mkWorld (priv w)
       (let released := alter (with_release false) b (alter (with_used false) b (buffers w)) in
        if 0 <? fence then alter drop_ref b released else released),
     [zwp_linux_buffer_release_v1_destroy b]).
Proof.
  unfold buffer_fenced_release. unfold_window. cbn.
  destruct (0 <? fence); reflexivity.
Qed.

End Cycle.

(** X1.  One presentation cycle gives back what it took.  On a window
    with explicit synchronisation, empty slots and no redraw pending, a
    buffer that the compositor does not hold is rendered: the call
    returns TRUE with one more reference on the buffer.  The commit
    callback hands that reference over to the compositor's hold, the
    frame callback empties the slots and clears [redraw_pending], and the
    immediate release by the compositor leaves the buffer exactly as it
    was before the call. *)
Theorem presentation_cycle_round_trip `{Platform} (w : World) (b : positive)
    (s : GstWlBuffer) (info : option GstVideoInfo) :
  slots_idle w = true ->
  redraw_pending (priv w) = false ->
  surface_sync (priv w) = true ->
  buffers w !! b = Some s ->
  used_by_compositor s = false ->
  buffer_release s = false ->
  let rendered := gst_wl_window_render (Some b) info w in
  let committed := commit_callback (final rendered) in
  let shown := frame_redraw_callback (final committed) in
  let released := buffer_immediate_release b (final shown) in
  value rendered = Returned true /\
  refcount_of (final rendered) b = Some (gstbuffer_refcount s + 1) /\
  count is_release_listener (trace committed) = 1%nat /\
  held_by_compositor (final committed) b = true /\
  refcount_of (final committed) b = Some (gstbuffer_refcount s + 1) /\
  next_buffer (priv (final shown)) = None /\
  staged_buffer (priv (final shown)) = None /\
  redraw_pending (priv (final shown)) = false /\
  buffers (final released) !! b = Some s.
Proof.
  intros Hidle Hp Hsync Hb Hused Hrel rendered committed shown released.
  apply slots_idle_fields in Hidle as [Hs Hn]. specialize (Hn Hp).
  assert (He : exists e : World,
             next_buffer (priv e) = None /\ staged_buffer (priv e) = None /\
             surface_sync (priv e) = true /\
             buffers e = alter take_ref b (buffers w) /\
             final rendered = mkWorld (submit_priv (Some b) (priv e)) (buffers e) /\
             value rendered = Returned true).
  { exists (render_entered (Some b) info w).
    destruct (render_entered_slots (Some b) info w) as (En & Es & Ep).
    rewrite En, Es, Hn, Hs. split_conj; try reflexivity.
    - destruct info; exact Hsync.
    - unfold rendered. rewrite render_run, render_wait_run, Ep, Hp.
      unfold both_slots_occupied. rewrite Es, Hs, andb_false_r. reflexivity.
    - unfold rendered. rewrite render_run, render_wait_run, Ep, Hp.
      unfold both_slots_occupied. rewrite Es, Hs, andb_false_r. reflexivity. }
  destruct He as (e & En & Es & Esync & Eb & Hfr & Hvr).
  assert (Hnext : next_buffer (priv (final rendered)) = Some b).
  { rewrite Hfr. unfold submit_priv. cbn [priv]. rewrite En. reflexivity. }
  assert (Hsync' : surface_sync (priv (final rendered)) = true).
  { rewrite Hfr. unfold submit_priv. cbn [priv]. rewrite En. exact Esync. }
  assert (Hstaged : staged_buffer (priv (final rendered)) = None).
  { rewrite Hfr. unfold submit_priv. cbn [priv]. rewrite En. exact Es. }
  assert (Hlook : buffers (final rendered) !! b = Some (take_ref s)).
  { rewrite Hfr. cbn [buffers]. rewrite Eb, lookup_alter_eq, Hb. reflexivity. }
  assert (Hheld : held_by_compositor (commit_unlocked (final rendered)) b = false).
  { unfold held_by_compositor, commit_unlocked. cbn [buffers]. rewrite Hlook. exact Hused. }
  assert (Hcommitted : buffers (final committed) !! b
                       = Some (mkBuffer (gstbuffer_refcount s + 1) true true)).
  { unfold committed. rewrite commit_callback_run, Hnext. cbn [final fst snd buffers].
    unfold unref_store. rewrite lookup_alter_eq.
    rewrite (commit_store_lookup b (commit_unlocked (final rendered)) (take_ref s))
      by exact Hlook.
    cbn [take_ref used_by_compositor]. rewrite Hused.
    change (surface_sync (priv (commit_unlocked (final rendered))))
      with (surface_sync (priv (final rendered))).
    rewrite Hsync'. unfold drop_ref, with_used, take_ref, with_release. cbn.
    f_equal. f_equal. lia. }
  assert (Hshown : priv (final shown)
                   = (if clear_window (priv (final committed))
                      then commit_priv None (priv (frame_unlocked (final committed)))
                      else priv (frame_unlocked (final committed)))
                   /\ buffers (final shown) = buffers (final committed)
                   /\ staged_buffer (priv (final committed)) = None).
  { assert (Hst : staged_buffer (priv (final committed)) = None).
    { unfold committed. rewrite commit_callback_run. cbn [final fst snd priv].
      destruct (commit_priv_kept (next_buffer (priv (final rendered)))
                  (priv (commit_unlocked (final rendered)))) as (_ & -> & _).
      exact Hstaged. }
    unfold shown. rewrite frame_redraw_callback_run, Hst. cbn [is_set orb final fst snd].
    destruct (clear_window (priv (final committed))); split_conj; try reflexivity;
      exact Hst. }
  destruct Hshown as (Hsp & Hsb & Hst).
  split_conj.
  - exact Hvr.
  - unfold refcount_of. rewrite Hlook. reflexivity.
  - unfold committed. rewrite commit_callback_run, Hnext. cbn [trace snd].
    rewrite count_app.
    destruct (commit_presents_buffer b (commit_unlocked (final rendered)))
      as (_ & _ & _ & _ & _ & -> & _).
    rewrite Hheld.
    change (surface_sync (priv (commit_unlocked (final rendered))))
      with (surface_sync (priv (final rendered))).
    rewrite Hsync'. reflexivity.
  - unfold held_by_compositor. rewrite Hcommitted. reflexivity.
  - unfold refcount_of. rewrite Hcommitted. reflexivity.
  - rewrite Hsp. destruct (clear_window (priv (final committed))).
    + destruct (commit_priv_kept None (priv (frame_unlocked (final committed))))
        as (-> & _). cbn. exact Hst.
    + cbn. exact Hst.
  - rewrite Hsp. destruct (clear_window (priv (final committed))).
    + destruct (commit_priv_kept None (priv (frame_unlocked (final committed))))
        as (_ & -> & _). reflexivity.
    + reflexivity.
  - rewrite Hsp. destruct (clear_window (priv (final committed))).
    + destruct (commit_priv_kept None (priv (frame_unlocked (final committed))))
        as (_ & _ & -> & _). reflexivity.
    + reflexivity.
  - unfold released. rewrite immediate_release_run. cbn [final fst snd buffers].
    rewrite !lookup_alter_eq, Hsb, Hcommitted. cbn.
    destruct s as [rc used rel]. cbn in *. subst.
    unfold drop_ref, with_release, with_used. cbn. f_equal. f_equal. lia.
Qed.

Lemma presentation_cycle_round_trip_witness :
  let rendered :=
    gst_wl_window_render (Some 1%positive) (Some sample_info) synced_world in
  let committed := commit_callback (H := sample_platform) (final rendered) in
  let shown := frame_redraw_callback (H := sample_platform) (final committed) in
  let released := buffer_immediate_release 1%positive (final shown) in
  value rendered = Returned true /\
  buffers (final released) !! 1%positive = Some sample_buffer.
Proof.
  destruct (presentation_cycle_round_trip (H := sample_platform) synced_world
              1%positive sample_buffer (Some sample_info))
    as (Hv & _ & _ & _ & _ & _ & _ & _ & Hb); try reflexivity.
  cbv zeta. split; [exact Hv | exact Hb].
Defined.

(** X2.  Clearing the window leaves the state machine waiting for a
    frame callback that was never requested.  On a window with empty
    slots, no redraw pending and no frame callback pending, a render call
    without buffer returns TRUE with [redraw_pending] and [clear_window]
    set; its commit callback attaches a null buffer to both surfaces,
    unmaps the area surface and requests no frame callback.  Afterwards
    [redraw_pending] is still set while neither callback is pending, and
    the next render call waits. *)
Theorem clear_leaves_redraw_pending `{Platform} (w : World)
    (info : option GstVideoInfo) (buffer : option positive) :
  slots_idle w = true ->
  redraw_pending (priv w) = false ->
  frame_callback (priv w) = false ->
  let cleared := gst_wl_window_render None info w in
  let committed := commit_callback (final cleared) in
  value cleared = Returned true /\
  clear_window (priv (final cleared)) = true /\
  redraw_pending (priv (final cleared)) = true /\
  count (is_attach_null video_surface) (trace committed) = 1%nat /\
  count (is_attach_null area_surface) (trace committed) = 1%nat /\
  count is_frame_request (trace committed) = 0%nat /\
  is_area_surface_mapped (priv (final committed)) = false /\
  clear_window (priv (final committed)) = false /\
  frame_callback (priv (final committed)) = false /\
  Priv.commit_callback (priv (final committed)) = false /\
  redraw_pending (priv (final committed)) = true /\
  value (gst_wl_window_render buffer info (final committed)) = Blocked.
Proof.
  intros Hidle Hp Hf cleared committed.
  apply slots_idle_fields in Hidle as [Hs Hn]. specialize (Hn Hp).
  assert (He : exists e : World,
             next_buffer (priv e) = None /\ frame_callback (priv e) = false /\
             final cleared = mkWorld (submit_priv None (priv e)) (buffers e) /\
             value cleared = Returned true).
  { exists (render_entered None info w).
    destruct (render_entered_slots None info w) as (En & Es & Ep).
    rewrite En, Hn. split_conj; try reflexivity.
    - destruct info; exact Hf.
    - unfold cleared. rewrite render_run, render_wait_run, Ep, Hp.
      unfold both_slots_occupied. rewrite Es, Hs, andb_false_r. reflexivity.
    - unfold cleared. rewrite render_run, render_wait_run, Ep, Hp.
      unfold both_slots_occupied. rewrite Es, Hs, andb_false_r. reflexivity. }
  destruct He as (e & En & Ef & Hfc & Hvc).
  assert (Hfields : next_buffer (priv (final cleared)) = None /\
                    clear_window (priv (final cleared)) = true /\
                    redraw_pending (priv (final cleared)) = true /\
                    frame_callback (priv (final cleared)) = false).
  { rewrite Hfc. unfold submit_priv. cbn [priv]. rewrite En. cbn.
    split_conj; try reflexivity. exact Ef. }
  destruct Hfields as (Hnext & Hclear & Hpend & Hframe).
  assert (Hrun : priv (final committed)
                 = commit_priv None (priv (commit_unlocked (final cleared)))
                 /\ trace committed
                    = [wl_callback_destroy the_commit_callback;
                       g_mutex_lock window_lock; g_mutex_unlock window_lock]
                      ++ commit_requests None (commit_unlocked (final cleared))).
  { unfold committed. rewrite commit_callback_run, Hnext. split; reflexivity. }
  destruct Hrun as [Hcp Hct].
  destruct (commit_clears_window (commit_unlocked (final cleared)))
    as (C1 & C2 & C3 & C4 & C5 & C6 & _).
  destruct (commit_priv_kept None (priv (commit_unlocked (final cleared))))
    as (_ & _ & K3 & K4 & _).
  assert (Hpc : redraw_pending (priv (final committed)) = true).
  { rewrite Hcp, K3. exact Hpend. }
  split_conj.
  - exact Hvc.
  - exact Hclear.
  - exact Hpend.
  - rewrite Hct, count_app, C4. reflexivity.
  - rewrite Hct, count_app, C5. reflexivity.
  - rewrite Hct, count_app, C6. reflexivity.
  - rewrite Hcp. exact C1.
  - rewrite Hcp. exact C2.
  - rewrite Hcp, C3. exact Hframe.
  - rewrite Hcp, K4. reflexivity.
  - exact Hpc.
  - rewrite render_value, Hpc. reflexivity.
Qed.

Lemma clear_leaves_redraw_pending_witness :
  let cleared := gst_wl_window_render None None fresh_world in
  let committed := commit_callback (H := sample_platform) (final cleared) in
  redraw_pending (priv (final committed)) = true /\
  value (gst_wl_window_render (Some 1%positive) None (final committed)) = Blocked.
Proof.
  destruct (clear_leaves_redraw_pending (H := sample_platform) fresh_world None
              (Some 1%positive))
    as (_ & _ & _ & _ & _ & _ & _ & _ & _ & _ & Hp & Hv); try reflexivity.
  cbv zeta. split; [exact Hp | exact Hv].
Defined.

(** ** Further properties of the constructor *)

Section Handshake.
Context `{Platform}.

Lemma dispatch_keeps_configured (e : display_event) (w : World) :
  configured (priv w) = true -> configured (priv (final (dispatch e w))) = true.
Proof.
  intros Hc. destruct e as [width height|serial]; cbn [dispatch].
  - unfold handle_xdg_toplevel_configure.
    destruct ((width <=? 2 * RESIZE_MARGIN) || (height <=? 2 * RESIZE_MARGIN));
      [exact Hc|].
    repeat (rewrite final_bind; cbn [emit final fst snd]).
    rewrite set_render_rectangle_configured. exact Hc.
  - unfold handle_xdg_surface_configure.
    repeat (rewrite final_bind; cbn [emit assign final fst snd]).
    reflexivity.
Qed.

Lemma dispatch_all_keeps_configured (l : list display_event) (w : World) :
  configured (priv w) = true -> configured (priv (final (dispatch_all l w))) = true.
Proof.
  revert w. induction l as [|e l IH]; intros w Hc.
  - exact Hc.
  - cbn [dispatch_all]. rewrite final_bind. apply IH, dispatch_keeps_configured, Hc.
Qed.

Lemma dispatch_all_configures (l : list display_event) (serial : Z) (w : World) :
  In (xdg_surface_configure serial) l ->
  configured (priv (final (dispatch_all l w))) = true.
Proof.
  revert w. induction l as [|e l IH]; intros w Hin; [destruct Hin|].
  cbn [dispatch_all]. rewrite final_bind. destruct Hin as [-> | Hin].
  - apply dispatch_all_keeps_configured. cbn [dispatch].
    unfold handle_xdg_surface_configure.
    repeat (rewrite final_bind; cbn [emit assign final fst snd]).
    reflexivity.
  - apply IH, Hin.
Qed.

End Handshake.

(** X3.  A configure event of the xdg surface that is dispatched before
    the timeout ends the constructor's wait at once: the handler
    acknowledges the serial, sets [configured] and signals
    [configure_cond] under [configure_mutex], and the loop is left at the
    time of the event, with no warning and whatever was to happen
    afterwards not looked at. *)
Theorem configure_event_ends_wait `{Platform} (timeout now t serial : Z)
    (rest : list (Z * happening)) (w : World) :
  t < timeout ->
  await_configure timeout now ((t, dispatched (xdg_surface_configure serial)) :: rest) w
  = (Z.max now t,
     mkWorld (set_configured true (priv w)) (buffers w),
     [xdg_surface_ack_configure serial; g_mutex_lock configure_mutex;
      g_cond_signal configure_cond; g_mutex_unlock configure_mutex]).
Proof.
  intros Ht. cbn [await_configure].
  apply Z.leb_gt in Ht. rewrite Ht.
  cbn [dispatch]. unfold handle_xdg_surface_configure, bind, emit, assign, get, ret.
  cbn. reflexivity.
Qed.

Lemma configure_event_ends_wait_witness :
  value (await_configure (H := sample_platform) 105000 5000
           [(7000, dispatched (xdg_surface_configure 1)); (40000, spurious_wakeup)]
           unconfigured_world) = 7000.
Proof.
  rewrite (configure_event_ends_wait (H := sample_platform) 105000 5000 7000 1
             [(40000, spurious_wakeup)] unconfigured_world) by lia.
  reflexivity.
Defined.

(** X4.  When the configure event of the xdg surface is dispatched
    before the constructor takes [configure_mutex], the constructor does
    not wait: the handshake is over at the time the clock was read, the
    window is configured, and between the lock and the unlock of
    [configure_mutex] nothing happens. *)
Theorem early_configure_skips_wait `{Platform} (env : Environment) (serial : Z)
    (w : World) :
  In (xdg_surface_configure serial) (early env) ->
  let waited := xdg_configure_handshake env w in
  value waited = g_get_monotonic_time env /\
  configured (priv (final waited)) = true /\
  last_events 2 (trace waited)
  = [g_mutex_lock configure_mutex; g_mutex_unlock configure_mutex].
Proof.
  intros Hin waited.
  pose proof (dispatch_all_configures (early env) serial
                (mkWorld (set_configured false (priv w)) (buffers w)) Hin) as Hc.
  unfold waited, xdg_configure_handshake. split_conj.
  - repeat (rewrite value_bind;
            cbn [value final trace fst snd get emit assign ret priv buffers app]).
    rewrite Hc. reflexivity.
  - repeat (rewrite final_bind;
            cbn [value final trace fst snd get emit assign ret priv buffers app]).
    rewrite Hc. cbn [value final trace fst snd get emit assign ret priv buffers app].
    exact Hc.
  - repeat (rewrite trace_bind;
            cbn [value final trace fst snd get emit assign ret priv buffers app]).
    rewrite Hc. cbn [value final trace fst snd get emit assign ret priv buffers app].
    match goal with
    | |- last_events 2 (?a :: ?b :: ?t ++ ?l) = _ =>
        change (a :: b :: t ++ l) with ((a :: b :: t) ++ l)
    end.
    apply (last_events_suffix _ [_; _]).
Qed.

Lemma early_configure_skips_wait_witness :
  value (xdg_configure_handshake (H := sample_platform)
           (mkEnv None true true 5000 [xdg_surface_configure 1] [])
           fresh_world) = 5000.
Proof.
  destruct (early_configure_skips_wait (H := sample_platform)
              (mkEnv None true true 5000 [xdg_surface_configure 1] []) 1 fresh_world)
    as (Hv & _).
  - left. reflexivity.
  - exact Hv.
Defined.

Section Failure.
Context `{Platform}.

Lemma finalize_requests_last (s : list Event) (p : GstWlWindowPrivate) :
  last_events 1 (s ++ finalize_requests p) = [parent_class_finalize].
Proof.
  unfold finalize_requests.
  change [destroy (obj_surface_wrapper area_surface); destroy (obj_surface area_surface);
          g_clear_object_display; parent_class_finalize]
    with ([destroy (obj_surface_wrapper area_surface); destroy (obj_surface area_surface);
           g_clear_object_display] ++ [parent_class_finalize]).
  rewrite !app_assoc. apply (last_events_suffix _ [_]).
Qed.

End Failure.



(** ** Further properties of the teardown and of the geometry *)

(** X6.  The teardown destroys what the window has and nothing else:
    each optional protocol object (xdg toplevel and surface, the two
    viewports, the synchronisation and blending objects, the area
    subsurface) is destroyed once when it exists and not at all
    otherwise, the surfaces and the video subsurface once; the toplevel
    goes before its xdg surface and the video subsurface before the video
    surface; and the teardown commits nothing. *)
Theorem finalize_destroys_what_exists (w : World) :
  let p := priv w in
  let tr := trace (gst_wl_window_finalize w) in
  let once (c : bool) := if c then 1%nat else 0%nat in
  count (is_destroy_of obj_xdg_toplevel) tr = once (xdg_toplevel p) /\
  count (is_destroy_of obj_xdg_surface) tr = once (xdg_surface p) /\
  count (is_destroy_of (obj_viewport video_surface)) tr = once (video_viewport p) /\
  count (is_destroy_of (obj_viewport area_surface)) tr = once (area_viewport p) /\
  count (is_destroy_of obj_surface_sync) tr = once (surface_sync p) /\
  count (is_destroy_of obj_blend_func) tr = once (blend_func p) /\
  count (is_destroy_of (obj_subsurface area_surface)) tr = once (area_subsurface p) /\
  count (is_destroy_of (obj_subsurface video_surface)) tr = 1%nat /\
  count (is_destroy_of (obj_surface video_surface)) tr = 1%nat /\
  count (is_destroy_of (obj_surface area_surface)) tr = 1%nat /\
  precedes (is_destroy_of obj_xdg_toplevel) (is_destroy_of obj_xdg_surface) tr
  = xdg_toplevel p && xdg_surface p /\
  precedes (is_destroy_of (obj_subsurface video_surface))
    (is_destroy_of (obj_surface video_surface)) tr = true /\
  precedes (is_destroy_of (obj_surface video_surface))
    (is_destroy_of (obj_surface area_surface)) tr = true /\
  count is_commit tr = 0%nat.
Proof.
  intros p tr once. subst p tr once. rewrite finalize_run. cbn [trace snd].
  unfold finalize_requests.
  destruct (frame_callback (priv w)), (Priv.commit_callback (priv w)),
    (xdg_toplevel (priv w)), (xdg_surface (priv w)), (video_viewport (priv w)),
    (surface_sync (priv w)), (blend_func (priv w)), (area_subsurface (priv w)),
    (area_viewport (priv w)).
  all: split_conj; reflexivity.
Qed.

(** X7.  Without crop metadata no source rectangle is set on the video
    viewport: after [gst_wl_window_set_source_crop] of a buffer that
    carries none, [gst_wl_window_resize_video_surface] sends no
    [wp_viewport_set_source], whatever the buffer transform, the scale
    and the crop that an earlier buffer left. *)
Theorem no_viewport_source_without_crop `{Platform} (w : World) (commit : bool) :
  let reset := final (gst_wl_window_set_source_crop None w) in
  src_width (priv reset) = -1 /\
  count is_viewport_source (trace (gst_wl_window_resize_video_surface commit reset))
  = 0%nat.
Proof.
  intros reset. split; [reflexivity|].
  unfold reset, gst_wl_window_set_source_crop. cbn [assign final fst snd].
  unfold gst_wl_window_resize_video_surface. unfold_window. cbn.
  destruct (video_viewport (priv w)), commit, (buffer_transform (priv w));
    cbn; rewrite ?Z.eqb_refl; cbn; rewrite ?andb_false_r; reflexivity.
Qed.

(** X8.  The two release handlers of explicit synchronisation.  Both
    clear the compositor's hold on the buffer and destroy and forget the
    release object; the immediate release then gives back one reference
    of the media buffer, the fenced release only when the fence it got is
    a descriptor greater than 0.  No other buffer is touched. *)
Theorem release_handlers_give_back_reference (w : World) (b other : positive)
    (s : GstWlBuffer) (fence : Z) :
  buffers w !! b = Some s ->
  other <> b ->
  let immediate := buffer_immediate_release b w in
  let fenced := buffer_fenced_release b fence w in
  buffers (final immediate) !! b = Some (mkBuffer (gstbuffer_refcount s - 1) false false) /\
  buffers (final fenced) !! b
  = Some (mkBuffer (gstbuffer_refcount s - (if 0 <? fence then 1 else 0)) false false) /\
  trace immediate = [zwp_linux_buffer_release_v1_destroy b] /\
  trace fenced = [zwp_linux_buffer_release_v1_destroy b] /\
  buffers (final immediate) !! other = buffers w !! other /\
  buffers (final fenced) !! other = buffers w !! other /\
  priv (final immediate) = priv w /\
  priv (final fenced) = priv w.
Proof.
  intros Hb Hne immediate fenced. unfold immediate, fenced.
  rewrite immediate_release_run, fenced_release_run. cbn [final trace fst snd buffers priv].
  split_conj; try reflexivity.
  - rewrite !lookup_alter_eq, Hb. reflexivity.
  - destruct (0 <? fence); rewrite !lookup_alter_eq, Hb; cbn.
    + reflexivity.
    + unfold with_release, with_used. cbn. f_equal. f_equal. lia.
  - rewrite !lookup_alter_ne by congruence. reflexivity.
  - destruct (0 <? fence); rewrite !lookup_alter_ne by congruence; reflexivity.
Qed.

Lemma release_handlers_give_back_reference_witness :
  buffers (final (buffer_fenced_release 1%positive 0 in_flight_world)) !! 1%positive
  = Some (mkBuffer 2 false false) /\
  buffers (final (buffer_immediate_release 1%positive in_flight_world)) !! 1%positive
  = Some (mkBuffer 1 false false).
Proof.
  destruct (release_handlers_give_back_reference in_flight_world 1%positive 2%positive
              (mkBuffer 2 false false) 0)
    as (Hi & Hf & _); [reflexivity | discriminate |].
  split; [exact Hf | exact Hi].
Defined.

(** X9.  [gst_wl_window_update_borders].  With a viewporter the area
    viewport's destination is set once, to the size of the render
    rectangle, and a mapped area surface is only resized: no buffer is
    attached and nothing is damaged.  In every other case one border
    buffer is attached and damaged once, and without a viewporter no
    destination is set. *)
Theorem update_borders_resizes_mapped_surface (w : World) :
  let p := priv w in
  let tr := trace (gst_wl_window_update_borders w) in
  let resized_only := viewporter (display p) && is_area_surface_mapped p in
  final (gst_wl_window_update_borders w) = w /\
  count (is_area_destination (render_rectangle p)) tr
  = (if viewporter (display p) then 1 else 0)%nat /\
  count is_area_attach tr = (if resized_only then 0 else 1)%nat /\
  count is_area_damage tr = (if resized_only then 0 else 1)%nat /\
  length tr = ((if viewporter (display p) then 1 else 0)
               + (if resized_only then 0 else 2))%nat.
Proof.
  intros p tr resized_only. subst p tr resized_only.
  unfold gst_wl_window_update_borders. unfold_window. cbn.
  destruct (viewporter (display (priv w))), (is_area_surface_mapped (priv w)); cbn.
  all: unfold count; cbn; rewrite ?Z.eqb_refl; cbn.
  all: split_conj; try reflexivity.
  all: destruct w; reflexivity.
Qed.

(** X10.  [gst_wl_window_update_geometry].  A window that is not
    configured commits nothing.  A configured one commits the area
    surface once; when a video size is known it does so inside one
    section of [commit_lock] in which the video subsurface is put in sync
    mode, the video surface resized and committed, the area surface
    committed and the subsurface set back to desync, in this order, and
    the video rectangle becomes the centered one; with no video size
    known it touches neither the lock nor the video surface. *)
Theorem update_geometry_resizes_in_sync `{Platform} (w : World) :
  let p := priv w in
  let updated := gst_wl_window_update_geometry w in
  let tr := trace updated in
  let resized := configured p && negb (scaled_width p =? 0) in
  let once (c : bool) := if c then 1%nat else 0%nat in
  count (is_commit_of area_surface) tr = once (configured p) /\
  count (is_commit_of video_surface) tr = once resized /\
  count is_video_sync tr = once resized /\
  count is_video_desync tr = once resized /\
  count is_commit_lock_op tr = (if resized then 2 else 0)%nat /\
  precedes is_commit_lock_op is_video_sync tr = resized /\
  precedes is_video_sync (is_commit_of video_surface) tr = resized /\
  precedes (is_commit_of video_surface) (is_commit_of area_surface) tr = resized /\
  precedes (is_commit_of area_surface) is_video_desync tr = resized /\
  precedes is_video_desync is_commit_lock_op tr = resized /\
  video_rectangle (priv (final updated))
  = (if resized then centered_video_rectangle p else video_rectangle p).
Proof.
  intros p updated tr resized once. subst p updated tr resized once.
  assert (Hrect : video_rectangle (priv (final (gst_wl_window_update_geometry w)))
                  = (if configured (priv w) && negb (scaled_width (priv w) =? 0)
                     then centered_video_rectangle (priv w)
                     else video_rectangle (priv w))).
  { rewrite geometry_run. cbn [final fst snd priv]. unfold geometry_priv.
    destruct (configured (priv w) && negb (scaled_width (priv w) =? 0)); reflexivity. }
  rewrite Hrect. clear Hrect.
  unfold gst_wl_window_update_geometry, gst_wl_window_update_borders,
    gst_wl_window_resize_video_surface.
  unfold_window. cbn.
  destruct (configured (priv w)), (scaled_width (priv w) =? 0),
    (area_subsurface (priv w)), (is_area_surface_mapped (priv w)),
    (viewporter (display (priv w))), (video_viewport (priv w)); cbn.
  all: repeat match goal with
              | |- context [if ?c then _ else _] => destruct c; cbn
              end.
  all: split_conj; reflexivity.
Qed.

(** ** Properties of the input listeners and of the rotation *)

(** X11.  What a click does.  On a toplevel window, after the pointer
    entered at the surface coordinates [(sx, sy)] (in 24.8 fixed point),
    a press of the left button asks the compositor for a resize when the
    pointer is within the resize margin of the right and of the bottom
    edge of the render rectangle, and for a move otherwise; a release,
    another button, or a window that is no toplevel sends nothing; a
    touch moves a toplevel and does nothing else.  None of the handlers
    changes the render rectangle.  After a toplevel configure that was
    applied (both sizes above twice the margin), a press at the origin of
    the surface is therefore always a move. *)
Theorem pointer_press_resizes_near_corner `{Platform} (w : World)
    (sx sy button state width height : Z) :
  let entered := final (pointer_handle_enter sx sy w) in
  let pressed := pointer_handle_button button state entered in
  let near :=
    (rect_w (render_rectangle (priv w)) - Z.quot sx 256 <=? 20)
    && (rect_h (render_rectangle (priv w)) - Z.quot sy 256 <=? 20) in
  let left_press := (button =? 272) && (state =? 1) in
  trace pressed
  = (if xdg_toplevel (priv w) && left_press
     then [if near then xdg_toplevel_resize else xdg_toplevel_move]
     else []) /\
  render_rectangle (priv (final pressed)) = render_rectangle (priv w) /\
  trace (touch_handle_down w)
  = (if xdg_toplevel (priv w) then [xdg_toplevel_move] else []) /\
  final (touch_handle_down w) = w /\
  (xdg_toplevel (priv w) = true ->
   40 < width -> 40 < height ->
   let configured_to := final (handle_xdg_toplevel_configure width height w) in
   trace (pointer_handle_button 272 1 (final (pointer_handle_enter 0 0 configured_to)))
   = [xdg_toplevel_move]).
Proof.
  intros entered pressed near left_press.
  subst entered pressed near left_press.
  unfold pointer_handle_enter, pointer_handle_button, touch_handle_down,
    wl_fixed_to_int, BTN_LEFT, WL_POINTER_BUTTON_STATE_PRESSED, RESIZE_MARGIN.
  unfold bind, assign, get, emit, ret. cbn.
  split_conj.
  - destruct (xdg_toplevel (priv w)), ((button =? 272) && (state =? 1)); cbn;
      try reflexivity.
    destruct ((rect_w (render_rectangle (priv w)) - sx ÷ 256 <=? 20)
              && (rect_h (render_rectangle (priv w)) - sy ÷ 256 <=? 20));
      reflexivity.
  - destruct (xdg_toplevel (priv w)), ((button =? 272) && (state =? 1)); cbn;
      try reflexivity.
    destruct ((rect_w (render_rectangle (priv w)) - sx ÷ 256 <=? 20)
              && (rect_h (render_rectangle (priv w)) - sy ÷ 256 <=? 20));
      reflexivity.
  - destruct (xdg_toplevel (priv w)); reflexivity.
  - destruct (xdg_toplevel (priv w)), w; reflexivity.
  - intros Htop Hw Hh.
    assert (Hrect : render_rectangle
                      (priv (final (handle_xdg_toplevel_configure width height w)))
                    = mkRect 0 0 width height).
    { unfold handle_xdg_toplevel_configure, RESIZE_MARGIN.
      destruct (orb_false_iff (width <=? 2 * 20) (height <=? 2 * 20)) as [_ ->].
      - repeat (rewrite final_bind; cbn [emit final fst snd]).
        apply set_render_rectangle_stored.
      - rewrite !Z.leb_gt. lia. }
    assert (Hkept : xdg_toplevel
                      (priv (final (handle_xdg_toplevel_configure width height w)))
                    = true).
    { unfold handle_xdg_toplevel_configure.
      destruct ((width <=? 2 * RESIZE_MARGIN) || (height <=? 2 * RESIZE_MARGIN));
        [exact Htop|].
      repeat (rewrite final_bind; cbn [emit final fst snd]).
      rewrite set_render_rectangle_run.
      destruct (rect_eqb _ _); [exact Htop|]. cbn [final fst snd priv].
      unfold geometry_priv.
      match goal with
      | |- context [if ?c then _ else _] => destruct c
      end; exact Htop. }
    rewrite Hkept, Hrect. cbn.
    destruct (orb_false_iff (width - 0 <=? 20) (height - 0 <=? 20)) as [_ E].
    change (0 ÷ 256) with 0.
    replace ((width - 0 <=? 20) && (height - 0 <=? 20)) with false; [reflexivity|].
    symmetry. apply andb_false_iff. left. apply Z.leb_gt. lia.
Qed.

Lemma pointer_press_resizes_near_corner_witness :
  trace (pointer_handle_button 272 1
           (final (pointer_handle_enter 0 0
                     (final (handle_xdg_toplevel_configure (H := sample_platform) 800 600
                               (mkWorld (set_xdg_toplevel true (priv fresh_world))
                                  (buffers fresh_world)))))))
  = [xdg_toplevel_move].
Proof.
  destruct (pointer_press_resizes_near_corner (H := sample_platform)
              (mkWorld (set_xdg_toplevel true (priv fresh_world)) (buffers fresh_world))
              0 0 272 1 800 600)
    as (_ & _ & _ & _ & Hmove).
  apply Hmove; [reflexivity | lia | lia].
Defined.

(** X12.  The rotation.  The eight orientation methods map to eight
    different buffer transforms, and the two remaining ones (auto and
    custom) to none.  Setting a method stores its transform and updates
    the geometry; on a configured window with a video size the video
    rectangle is then centered from a source of the scaled width by the
    video height, and from the same two swapped exactly when the method
    turns the picture by a quarter. *)
Theorem rotate_method_swaps_source `{Platform} (w : World)
    (method other : GstVideoOrientationMethod) (t : wl_output_transform)
    (rotate : M unit) :
  output_transform_from_orientation_method method = Some t ->
  gst_wl_window_set_rotate_method method = Some rotate ->
  configured (priv w) = true ->
  scaled_width (priv w) <> 0 ->
  (output_transform_from_orientation_method other = Some t -> other = method) /\
  buffer_transform (priv (final (rotate w))) = t /\
  video_rectangle (priv (final (rotate w)))
  = gst_video_center_rect
      (if quarter_turn method
       then mkRect 0 0 (video_height (priv w)) (scaled_width (priv w))
       else mkRect 0 0 (scaled_width (priv w)) (video_height (priv w)))
      (mkRect 0 0 (rect_w (render_rectangle (priv w)))
         (rect_h (render_rectangle (priv w))))
      (video_viewport (priv w)).
Proof.
  intros Ht Hr Hc Hs.
  unfold gst_wl_window_set_rotate_method in Hr. rewrite Ht in Hr.
  injection Hr as <-.
  apply Z.eqb_neq in Hs.
  split_conj.
  - destruct method, other; cbn in *; congruence.
  - rewrite final_bind. cbn [assign final fst snd]. rewrite geometry_run.
    cbn [final fst snd priv]. unfold geometry_priv.
    match goal with
    | |- context [if ?c then _ else _] => destruct c
    end; reflexivity.
  - rewrite final_bind. cbn [assign final fst snd]. rewrite geometry_run.
    cbn [final fst snd priv]. unfold geometry_priv.
    change (configured (set_buffer_transform t (priv w))) with (configured (priv w)).
    change (scaled_width (set_buffer_transform t (priv w))) with (scaled_width (priv w)).
    rewrite Hc, Hs. cbn [andb negb].
    unfold centered_video_rectangle, gst_wl_window_resize_video_surface.
    unfold_window. cbn.
    destruct method; cbn in Ht; try discriminate; injection Ht as <-; cbn.
    all: destruct (video_viewport (priv w)); cbn.
    all: repeat match goal with
                | |- context [if ?c then _ else _] => destruct c; cbn
                end.
    all: reflexivity.
Qed.

Lemma rotate_method_swaps_source_witness :
  exists rotate : M unit,
    gst_wl_window_set_rotate_method (H := sample_platform) GST_VIDEO_ORIENTATION_90R
    = Some rotate /\
    buffer_transform
      (priv (final (rotate (mkWorld (set_scaled_width 640 (priv fresh_world))
                              (buffers fresh_world)))))
    = WL_OUTPUT_TRANSFORM_90.
Proof.
  eexists. split; [reflexivity|].
  destruct (rotate_method_swaps_source (H := sample_platform)
              (mkWorld (set_scaled_width 640 (priv fresh_world)) (buffers fresh_world))
              GST_VIDEO_ORIENTATION_90R GST_VIDEO_ORIENTATION_IDENTITY
              WL_OUTPUT_TRANSFORM_90 _ eq_refl eq_refl eq_refl)
    as (_ & Hb & _); [discriminate|].
  exact Hb.
Defined.
